(** * The debugger's Watch panel (DolphinQt/Debugger/WatchWidget.cpp)

    A shallow embedding of [WatchWidget]: the table rebuild [Update], the
    edit-dispatch slot [OnItemChanged], and the persistence actions [OnLoad]
    and [OnSave], over an explicit world made of the watch store, the emulated
    memory, the per-game configuration files and the widget's own fields.

    Integers follow the C++ types: [int] rows and columns are [Z], [u32]
    addresses and values are [N] below [2^32].  [tr] is taken as the identity
    on the untranslated source strings. *)

From Stdlib Require Import ZArith NArith String Ascii Lia.
From stdpp Require Import base option list gmap strings.

Local Open Scope string_scope.
Local Open Scope list_scope.
Local Open Scope nat_scope.

(** ** Qt text helpers *)

Module Qt.

(** [QString::isEmpty]. *)
Definition isEmpty (s : string) : bool :=
  match s with
  | EmptyString => true
  | String _ _ => false
  end.

Definition digit_char (d : N) : ascii :=
  match d with
  | 0 => "0" | 1 => "1" | 2 => "2" | 3 => "3" | 4 => "4"
  | 5 => "5" | 6 => "6" | 7 => "7" | 8 => "8" | 9 => "9"
  | 10 => "a" | 11 => "b" | 12 => "c" | 13 => "d" | 14 => "e"
  | _ => "f"
  end%N%char.

(** Digits of [n] in [base], most significant first, pushed in front of
    [acc]; at least one digit is produced when [fuel] is positive. *)
Fixpoint digits (base : N) (fuel : nat) (n : N) (acc : string) : string :=
  match fuel with
  | O => acc
  | S fuel' =>
      let acc' := String (digit_char (n mod base)) acc in
      if (n / base =? 0)%N then acc' else digits base fuel' (n / base) acc'
  end.

(** [QString::number(n, base)] for an unsigned value (lower-case digits). *)
Definition number (n : N) (base : N) : string :=
  digits base (S (N.to_nat (N.log2 n))) n "".

Fixpoint fill (k : nat) (c : ascii) (s : string) : string :=
  match k with
  | O => s
  | S k' => String c (fill k' c s)
  end.

(** [QStringLiteral("%1").arg(n, fieldWidth, base, fillChar)]: the number,
    right-aligned in a field of at least [fieldWidth] characters. *)
Definition arg (n : N) (fieldWidth : nat) (base : N) (fillChar : ascii) : string :=
  let s := number n base in
  fill (fieldWidth - String.length s) fillChar s.

(** [QVariant::isNull] and [QVariant::toInt] on the integer payloads the
    panel stores under [Qt::UserRole] and [Qt::UserRole + 1]. *)
Definition isNull (v : option Z) : bool :=
  match v with
  | None => true
  | Some _ => false
  end.

Definition toInt (v : option Z) : Z := default 0%Z v.

(** The foreground brush of an item: the palette's text brush, or that
    brush recoloured with [Qt::red]. *)
Inductive Brush := PaletteText | Red.

(** [Qt::ItemFlags] as the panel uses them: the default flags of a fresh
    item (editable), or [Qt::ItemIsEnabled] alone (not editable). *)
Inductive ItemFlags := DefaultFlags | ItemIsEnabled.

(** [QTableWidgetItem]. *)
Record Item := mkItem {
  text : string;
  foreground : option Brush;
  data_UserRole : option Z;
  data_UserRole1 : option Z;
  flags : ItemFlags;
}.

(** [new QTableWidgetItem]. *)
Definition newItem : Item := mkItem "" None None None DefaultFlags.

Definition setText (s : string) (it : Item) : Item :=
  mkItem s (foreground it) (data_UserRole it) (data_UserRole1 it) (flags it).
Definition setForeground (b : Brush) (it : Item) : Item :=
  mkItem (text it) (Some b) (data_UserRole it) (data_UserRole1 it) (flags it).
Definition setData_UserRole (v : Z) (it : Item) : Item :=
  mkItem (text it) (foreground it) (Some v) (data_UserRole1 it) (flags it).
Definition setData_UserRole1 (v : Z) (it : Item) : Item :=
  mkItem (text it) (foreground it) (data_UserRole it) (Some v) (flags it).
Definition setFlags (f : ItemFlags) (it : Item) : Item :=
  mkItem (text it) (foreground it) (data_UserRole it) (data_UserRole1 it) f.

(** [QTableWidget]: its dimensions, the items by (row, column), and the
    horizontal header labels. *)
Record Table := mkTable {
  rowCount : nat;
  columnCount : nat;
  items : gmap (nat * nat) Item;
  horizontalHeaderLabels : list string;
}.

(** [QTableWidget::clear]: items and headers go, the dimensions stay. *)
Definition clear (t : Table) : Table :=
  mkTable (rowCount t) (columnCount t) ∅ [].

(** [QTableWidget::setRowCount]: items of the rows cut off are dropped. *)
Definition setRowCount (n : nat) (t : Table) : Table :=
  mkTable n (columnCount t)
          (filter (λ kv : (nat * nat) * Item, kv.1.1 < n) (items t))
          (horizontalHeaderLabels t).

(** [QTableWidget::setHorizontalHeaderLabels]: one label per existing
    column. *)
Definition setHorizontalHeaderLabels (labels : list string) (t : Table) : Table :=
  mkTable (rowCount t) (columnCount t) (items t) (take (columnCount t) labels).

Definition inside (r c : nat) (t : Table) : bool :=
  bool_decide (r < rowCount t) && bool_decide (c < columnCount t).

(** The storing half of [QTableWidget::setItem]; a position outside the
    table is refused. *)
Definition place (r c : nat) (it : Item) (t : Table) : Table :=
  if inside r c t
  then mkTable (rowCount t) (columnCount t) (<[(r, c) := it]> (items t))
               (horizontalHeaderLabels t)
  else t.

End Qt.

Export Qt.

(** ** The watch store *)

(** Modelled from the spec: the watch store behind [PowerPC::debug_interface]
    (its source is not part of the panel's file).  A watch entry is a name and
    a 32-bit address; the store is the ordered sequence of entries, and an
    entry's identity is its position. *)
Record Watch := mkWatch {
  name : string;
  address : N;
}.

Module Watches.

(** Modelled from the spec: entry-by-index of the watch store.  The spec
    gives no result for an index that names no entry; [None] stands for
    that case and nothing is claimed about it. *)
Definition GetWatch (index : Z) (ws : list Watch) : option Watch :=
  if (0 <=? index)%Z then ws !! Z.to_nat index else None.

(** Modelled from the spec: add(name, address) of the watch store, which
    appends a new entry with the given name and address. *)
Definition SetWatch (addr : N) (nm : string) (ws : list Watch) : list Watch :=
  ws ++ [mkWatch nm addr].

(** Modelled from the spec: remove(index) of the watch store, which removes
    the entry at the index and shifts the later ones down by one. *)
Definition RemoveWatch (index : Z) (ws : list Watch) : option (list Watch) :=
  _ ← GetWatch index ws; Some (delete (Z.to_nat index) ws).

(** Modelled from the spec: rename(index, name) of the watch store. *)
Definition UpdateWatchName (index : Z) (nm : string) (ws : list Watch)
  : option (list Watch) :=
  e ← GetWatch index ws; Some (<[Z.to_nat index := mkWatch nm (address e)]> ws).

(** Modelled from the spec: re-address(index, address) of the watch store. *)
Definition UpdateWatchAddress (index : Z) (addr : N) (ws : list Watch)
  : option (list Watch) :=
  e ← GetWatch index ws; Some (<[Z.to_nat index := mkWatch (name e) addr]> ws).

(** Modelled from the spec: clear-all() of the watch store. *)
Definition ClearWatches (ws : list Watch) : list Watch := [].

End Watches.

Export Watches.

(** The serialised form of the store belongs to the store and is left open:
    bulk-deserialise into a store, and bulk-serialise a store. *)
Class WatchStrings := {
  LoadWatchesFromStrings : list string → list Watch → list Watch;
  SaveWatchesToStrings : list Watch → list string;
}.

(** ** The per-game configuration file *)

Module Ini.

(** Modelled from the spec: [IniFile] (Common/IniFile, not part of the
    panel's file), a configuration file as named sections in file order,
    each holding an ordered list of lines. *)
Abbreviation IniFile := (list (string * list string)).

(** Modelled from the spec: [IniFile::GetLines], the lines of a section, or
    failure when the section is absent. *)
Fixpoint GetLines (section : string) (ini : IniFile) : option (list string) :=
  match ini with
  | [] => None
  | (s, ls) :: rest => if String.eqb s section then Some ls else GetLines section rest
  end.

(** Modelled from the spec: [IniFile::SetLines], which overwrites the lines
    of the section, creating the section at the end when it is absent. *)
Fixpoint SetLines (section : string) (lines : list string) (ini : IniFile) : IniFile :=
  match ini with
  | [] => [(section, lines)]
  | (s, ls) :: rest =>
      if String.eqb s section then (s, lines) :: rest
      else (s, ls) :: SetLines section lines rest
  end.

End Ini.

Export Ini.

(** ** The memory accessor and the number reader *)

(** The emulated memory (Core/PowerPC/MMU) is consumed through four
    operations and is otherwise left open. *)
Class MemoryAccessor := {
  Memory : Type;
  HostIsRAMAddress : Memory → N → bool;
  HostRead_U32 : Memory → N → N;
  (** value first, then address, as in the source *)
  HostWrite_U32 : N → N → Memory → Memory;
  HostGetString : Memory → N → nat → string;
}.

(** [QString::toUInt(&good, base)]: [Some value] when [good], the value being
    a [quint32]. *)
Class NumberReader := toUInt : string → N → option N.

(** ** The world the panel acts on *)

(** What an observer of the panel sees happen, in order: a call of [Update]
    (kept on record so that statements can say that a rebuild took place, and
    when), and the blocking error box of [QMessageBox::critical]. *)
Inductive Effect :=
| Refreshed
| MessageBoxCritical (title msg : string).

Definition is_refresh (e : Effect) : bool :=
  match e with
  | Refreshed => true
  | MessageBoxCritical _ _ => false
  end.

Section Panel.

Context {MA : MemoryAccessor} {WS : WatchStrings} {NR : NumberReader}.

Record World := mkWorld {
  (** [PowerPC::debug_interface.GetWatches()] *)
  watches : list Watch;
  memory : Memory;
  (** [Core::IsRunning()] *)
  running : bool;
  (** [File::GetUserPath(D_GAMESETTINGS_IDX)] *)
  game_settings_dir : string;
  (** [SConfig::GetInstance().GetGameID()] *)
  game_id : string;
  (** the configuration files on disk, by path *)
  files : gmap string IniFile;
  m_updating : bool;
  m_table : Table;
  effects : list Effect;
}.

Definition set_watches (ws : list Watch) (w : World) : World :=
  mkWorld ws (memory w) (running w) (game_settings_dir w) (game_id w) (files w)
          (m_updating w) (m_table w) (effects w).
Definition set_memory (m : Memory) (w : World) : World :=
  mkWorld (watches w) m (running w) (game_settings_dir w) (game_id w) (files w)
          (m_updating w) (m_table w) (effects w).
Definition set_files (fs : gmap string IniFile) (w : World) : World :=
  mkWorld (watches w) (memory w) (running w) (game_settings_dir w) (game_id w) fs
          (m_updating w) (m_table w) (effects w).
Definition set_updating (b : bool) (w : World) : World :=
  mkWorld (watches w) (memory w) (running w) (game_settings_dir w) (game_id w) (files w)
          b (m_table w) (effects w).
Definition set_table (t : Table) (w : World) : World :=
  mkWorld (watches w) (memory w) (running w) (game_settings_dir w) (game_id w) (files w)
          (m_updating w) t (effects w).
Definition emit (e : Effect) (w : World) : World :=
  mkWorld (watches w) (memory w) (running w) (game_settings_dir w) (game_id w) (files w)
          (m_updating w) (m_table w) (effects w ++ [e]).

Definition tr (s : string) : string := s.

(** A slot connected to [QTableWidget::itemChanged]. *)
Definition Slot := World → Item → option World.

(** [m_table->setItem(r, c, item)]: the item is stored and the table emits
    [itemChanged], which runs the connected slot at once (ConnectWidgets
    connects it to [OnItemChanged]). *)
Definition setItem (slot : Slot) (r c : nat) (it : Item) (w : World) : option World :=
  if inside r c (m_table w)
  then slot (set_table (place r c it (m_table w)) w) it
  else Some w.

(** The five items that one turn of the loop of [Update] builds for the
    entry of row [i] (lines 139-172), in column order. *)
Definition Update_items (w : World) (i : nat) (entry : Watch)
  : Item * Item * Item * Item * Item :=
  let label := setText (name entry) newItem in
  let address_item := setText (arg (address entry) 8 16 "0") newItem in
  let hex := newItem in
  let decimal := newItem in
  let string_item := newItem in
  let brush :=
    if negb (running w) || negb (HostIsRAMAddress (memory w) (address entry))
    then Red else PaletteText in
  let '(hex, decimal, string_item) :=
    if running w then
      if HostIsRAMAddress (memory w) (address entry) then
        (setText (arg (HostRead_U32 (memory w) (address entry)) 8 16 "0") hex,
         setText (number (HostRead_U32 (memory w) (address entry)) 10) decimal,
         setText (HostGetString (memory w) (address entry) 32) string_item)
      else (hex, decimal, string_item)
    else (hex, decimal, string_item) in
  let address_item := setForeground brush address_item in
  let tag (column : Z) (it : Item) :=
    setData_UserRole1 column (setData_UserRole (Z.of_nat i) it) in
  let label := tag 0%Z label in
  let address_item := tag 1%Z address_item in
  let hex := tag 2%Z hex in
  let decimal := tag 3%Z decimal in
  let string_item := tag 4%Z string_item in
  let string_item := setFlags ItemIsEnabled string_item in
  (label, address_item, hex, decimal, string_item).

(** One turn of the loop of [Update] (lines 135-179): the entry is read,
    its items are built, and they are stored one by one. *)
Definition Update_row (slot : Slot) (i : nat) (w : World) : option World :=
  entry ← GetWatch (Z.of_nat i) (watches w);
  let '(label, address_item, hex, decimal, string_item) := Update_items w i entry in
  w ← setItem slot i 0 label w;
  w ← setItem slot i 1 address_item w;
  w ← setItem slot i 2 hex w;
  w ← setItem slot i 3 decimal w;
  setItem slot i 4 string_item w.

(** [WatchWidget::Update], with the slot that [itemChanged] is connected
    to.  The first line records the call; the rest follows lines 120-193.
    [size] is the [int] the source casts the list's size to. *)
Definition Update_with (slot : Slot) (w : World) : option World :=
  let w := emit Refreshed w in
  let w := set_updating true w in
  let w := set_table (clear (m_table w)) w in
  let size := length (watches w) in
  let w := set_table (setRowCount (size + 1) (m_table w)) w in
  let w := set_table
             (setHorizontalHeaderLabels
                [tr "Label"; tr "Address"; tr "Hexadecimal"; tr "Decimal"; tr "String"]
                (m_table w)) w in
  w ← foldl (λ acc i, acc ≫= Update_row slot i) (Some w) (seq 0 size);
  let label := setData_UserRole (-1)%Z newItem in
  w ← setItem slot size 0 label w;
  w ← foldl (λ acc i, acc ≫= setItem slot size i (setFlags ItemIsEnabled newItem))
            (Some w) (seq 1 4);
  Some (set_updating false w).

(** [WatchWidget::AddWatch]. *)
Definition AddWatch (nm : string) (addr : N) (w : World) : World :=
  set_watches (SetWatch addr nm (watches w)) w.

(** [WatchWidget::DeleteWatch]. *)
Definition DeleteWatch_with (update : World → option World) (row : Z) (w : World)
  : option World :=
  ws ← RemoveWatch row (watches w);
  update (set_watches ws w).

(** [WatchWidget::OnItemChanged], with the [Update] it calls. *)
Definition OnItemChanged_with (update : World → option World) (w : World) (item : Item)
  : option World :=
  if m_updating w || isNull (data_UserRole item) then Some w
  else
    let row := toInt (data_UserRole item) in
    let column := toInt (data_UserRole1 item) in
    if (row =? -1)%Z then
      if negb (isEmpty (text item))
      then update (AddWatch (text item) 0 w)
      else Some w
    else
      w ← match column with
          | 0%Z =>
              if isEmpty (text item)
              then DeleteWatch_with update row w
              else ws ← UpdateWatchName row (text item) (watches w);
                   Some (set_watches ws w)
          | 1%Z | 2%Z | 3%Z =>
              match toUInt (text item) (if (column <? 3)%Z then 16 else 10)%N with
              | Some value =>
                  if (column =? 1)%Z
                  then ws ← UpdateWatchAddress row value (watches w);
                       Some (set_watches ws w)
                  else e ← GetWatch row (watches w);
                       Some (set_memory (HostWrite_U32 value (address e) (memory w)) w)
              | None =>
                  Some (emit (MessageBoxCritical (tr "Error")
                                                 (tr "Invalid input provided")) w)
              end
          | _ => Some w
          end;
      update w.

(** The slot and the rebuild call each other: the rebuild fires
    [itemChanged] for every item it stores, and the slot ends in a rebuild.
    [fuel] bounds the nesting of the two. *)
Fixpoint OnItemChanged_fuel (fuel : nat) (w : World) (item : Item) : option World :=
  match fuel with
  | O => None
  | S fuel' => OnItemChanged_with (Update_with (OnItemChanged_fuel fuel')) w item
  end.

Definition Update_fuel (fuel : nat) : World → option World :=
  Update_with (OnItemChanged_fuel fuel).

(** Nesting never goes deeper than slot, rebuild, slot (see
    [Update_fuel_enough] and [OnItemChanged_fuel_enough]). *)
Definition Update : World → option World := Update_fuel 1.
Definition OnItemChanged : World → Item → option World := OnItemChanged_fuel 2.
Definition DeleteWatch : Z → World → option World := DeleteWatch_with Update.

Definition ini_path (w : World) : string :=
  game_settings_dir w +:+ game_id w +:+ ".ini".

(** [WatchWidget::OnLoad].  [IniFile::Load] fails when there is no file at
    the path. *)
Definition OnLoad (w : World) : option World :=
  match files w !! ini_path w with
  | None => Some w
  | Some ini =>
      let w :=
        match GetLines "Watches" ini with
        | Some lines =>
            let w := set_watches (ClearWatches (watches w)) w in
            set_watches (LoadWatchesFromStrings lines (watches w)) w
        | None => w
        end in
      Update w
  end.

(** [WatchWidget::OnSave].  The local [IniFile] starts empty and stays so
    when [Load] fails; [IniFile::Save] writes it at the path. *)
Definition OnSave (w : World) : World :=
  let ini : IniFile := default [] (files w !! ini_path w) in
  let ini := SetLines "Watches" (SaveWatchesToStrings (watches w)) ini in
  set_files (<[ini_path w := ini]> (files w)) w.

(** *** The rebuild without its slot

    The table that [Update] leaves when every [itemChanged] it fires is
    ignored: the same stores, in the same order, with no slot in between. *)

Definition store_row (w : World) (t : Table) (i : nat) : Table :=
  match watches w !! i with
  | Some entry =>
      let '(label, address_item, hex, decimal, string_item) := Update_items w i entry in
      place i 4 string_item
        (place i 3 decimal (place i 2 hex (place i 1 address_item (place i 0 label t))))
  | None => t
  end.

Definition rebuilt (w : World) : Table :=
  let size := length (watches w) in
  let t := setHorizontalHeaderLabels
             [tr "Label"; tr "Address"; tr "Hexadecimal"; tr "Decimal"; tr "String"]
             (setRowCount (size + 1) (clear (m_table w))) in
  let t := foldl (store_row w) t (seq 0 size) in
  let t := place size 0 (setData_UserRole (-1)%Z newItem) t in
  foldl (λ t i, place size i (setFlags ItemIsEnabled newItem) t) t (seq 1 4).

(** The world a rebuild leaves: the new table, the guard lowered again,
    and the rebuild on record. *)
Definition refreshed (w : World) : World :=
  set_updating false (set_table (rebuilt w) (emit Refreshed w)).

(** The slot that drops every signal. *)
Definition no_slot : Slot := λ w _, Some w.

(** The items of row [r] of a rebuilt table, in column order. *)
Definition row_cells (w : World) (r : nat) : list Item :=
  match watches w !! r with
  | Some entry =>
      let '(label, address_item, hex, decimal, string_item) := Update_items w r entry in
      [label; address_item; hex; decimal; string_item]
  | None =>
      if bool_decide (r = length (watches w))
      then setData_UserRole (-1)%Z newItem :: replicate 4 (setFlags ItemIsEnabled newItem)
      else []
  end.

(** An entry is live when the target is running and its address is RAM. *)
Definition live (w : World) (entry : Watch) : bool :=
  running w && HostIsRAMAddress (memory w) (address entry).

(** A slot that honours the guard: it leaves the world alone while
    [m_updating] is set. *)
Definition guarded (slot : Slot) : Prop :=
  ∀ w item, m_updating w = true → slot w item = Some w.

(** The number of rebuilds recorded so far. *)
Definition refreshes (w : World) : nat :=
  length (filter (λ e, is_refresh e) (effects w)).

(** The error boxes recorded so far. *)
Definition errors (w : World) : list Effect :=
  filter (λ e, ¬ is_refresh e) (effects w).

End Panel.

(** ** The rest of the widget: menu, breakpoint request, construction,
    emulation state *)

(** An entry of the context menu, with the row an action was built for. *)
Inductive MenuEntry :=
| DeleteWatchAction (row : Z)
| AddMemoryBreakpointAction (row : Z)
| Separator
| UpdateAction.

(** Modelled from the spec: the states of the target behind [Core::State]
    (Core/Core.h is not part of the panel's file): stopped, starting or
    running.  The panel only tells [Starting] from the others. *)
Inductive State := Stopped | Starting | Running.

Definition is_Starting (state : State) : bool :=
  match state with
  | Starting => true
  | Stopped | Running => false
  end.

Section Widget.

Context {MA : MemoryAccessor} {WS : WatchStrings} {NR : NumberReader}.

(** [WatchWidget::AddWatchBreakpoint]: the address that the emitted
    [RequestMemoryBreakpoint] signal carries. *)
Definition AddWatchBreakpoint (row : Z) (w : World) : option N :=
  e ← GetWatch row (watches w);
  Some (address e).

(** [WatchWidget::ShowContextMenu]: the entries of the menu built for the
    current selection ([m_table->selectedItems()]), in order. *)
Definition ShowContextMenu (selectedItems : list Item) : list MenuEntry :=
  match selectedItems with
  | [] => []
  | first :: _ =>
      let row_variant := data_UserRole first in
      if negb (isNull row_variant) then
        let row := toInt row_variant in
        if (0 <=? row)%Z
        then [DeleteWatchAction row; AddMemoryBreakpointAction row]
        else []
      else []
  end ++ [Separator; UpdateAction].

(** What choosing an entry of the menu does to the world. *)
Definition trigger (a : MenuEntry) (w : World) : option World :=
  match a with
  | DeleteWatchAction row => DeleteWatch row w
  | AddMemoryBreakpointAction row => _ ← AddWatchBreakpoint row w; Some w
  | Separator => Some w
  | UpdateAction => Update w
  end.

(** The widget around the world: the enabled state of the two toolbar
    actions [m_load] and [m_save]. *)
Record Widget := mkWidget {
  world : World;
  m_load_enabled : bool;
  m_save_enabled : bool;
}.

(** [WatchWidget::CreateWidgets]: a new table with five columns and no rows,
    and the two toolbar actions disabled. *)
Definition CreateWidgets (w : World) : Widget :=
  mkWidget (set_table (mkTable 0 5 ∅ []) w) false false.

(** The constructor [WatchWidget::WatchWidget]: [CreateWidgets], then
    [ConnectWidgets] (the slot is connected from here on), then, last,
    [Update].  The guard field starts cleared. *)
Definition WatchWidget_new (w : World) : option Widget :=
  let wd := CreateWidgets (set_updating false w) in
  w' ← Update (world wd);
  Some (mkWidget w' (m_load_enabled wd) (m_save_enabled wd)).

(** The handler of [Settings::EmulationStateChanged] that the constructor
    installs (lines 41-50); [debug_mode] is
    [Settings::Instance().IsDebugModeEnabled()]. *)
Definition OnEmulationStateChanged (debug_mode : bool) (state : State) (wd : Widget)
  : option Widget :=
  if negb debug_mode then Some wd
  else
    let wd := mkWidget (world wd) (running (world wd)) (m_save_enabled wd) in
    let wd := mkWidget (world wd) (m_load_enabled wd) (running (world wd)) in
    if negb (is_Starting state)
    then w' ← Update (world wd); Some (mkWidget w' (m_load_enabled wd) (m_save_enabled wd))
    else Some wd.

(** The state the panel is in between two events: five columns, the guard
    cleared, and the table being the rebuild of the current world. *)
Definition settled (w : World) : Prop :=
  columnCount (m_table w) = 5 ∧ m_updating w = false ∧ m_table w = rebuilt w.

End Widget.

(** ** A sample target

    A small concrete memory, number reader and watch serialisation, used to
    run the panel on explicit inputs. *)

Module Sample.

Definition read8 (m : gmap N N) (a : N) : N := default 0%N (m !! a).

Definition isRAM (m : gmap N N) (a : N) : bool :=
  ((0x80000000 <=? a) && (a <? 0x81800000))%N.

Definition read32 (m : gmap N N) (a : N) : N :=
  (read8 m a * 0x1000000 + read8 m (a + 1) * 0x10000
   + read8 m (a + 2) * 0x100 + read8 m (a + 3))%N.

Definition write32 (v a : N) (m : gmap N N) : gmap N N :=
  <[a := (v / 0x1000000 mod 256)%N]>
    (<[(a + 1)%N := (v / 0x10000 mod 256)%N]>
       (<[(a + 2)%N := (v / 0x100 mod 256)%N]>
          (<[(a + 3)%N := (v mod 256)%N]> m))).

Fixpoint getString (m : gmap N N) (a : N) (n : nat) : string :=
  match n with
  | O => ""
  | S n' =>
      let b := read8 m a in
      if (b =? 0)%N then "" else String (ascii_of_N b) (getString m (a + 1)%N n')
  end.

Definition memory_accessor : MemoryAccessor :=
  Build_MemoryAccessor (gmap N N) isRAM read32 write32 getString.

Definition digit_value (c : ascii) : option N :=
  let k := N_of_ascii c in
  if ((48 <=? k) && (k <=? 57))%N then Some (k - 48)%N
  else if ((97 <=? k) && (k <=? 102))%N then Some (k - 87)%N
  else if ((65 <=? k) && (k <=? 70))%N then Some (k - 55)%N
  else None.

Fixpoint read_digits (base : N) (s : string) (acc : N) : option N :=
  match s with
  | EmptyString => Some acc
  | String c s' =>
      d ← digit_value c;
      if (d <? base)%N then read_digits base s' (acc * base + d)%N else None
  end.

(** A reader of plain digit strings: no sign, no blanks, no prefix. *)
Definition number_reader : NumberReader :=
  λ s base,
    if isEmpty s then None
    else v ← read_digits base s 0%N;
         if (v <? 0x100000000)%N then Some v else None.

Definition save_line (e : Watch) : string :=
  arg (address e) 8 16 "0" +:+ " " +:+ name e.

Definition load_line (l : string) : option Watch :=
  a ← number_reader (substring 0 8 l) 16%N;
  Some (mkWatch (substring 9 (String.length l - 9) l) a).

Definition watch_strings : WatchStrings :=
  Build_WatchStrings (λ lines ws, ws ++ omap load_line lines) (map save_line).

Definition mem0 : gmap N N :=
  write32 0x48690000 0x80001000 ∅.

(** The table as [CreateWidgets] leaves it: five columns, no rows. *)
Definition table0 : Table := mkTable 0 5 ∅ [].

Definition world0 : World (MA:=memory_accessor) :=
  mkWorld (MA:=memory_accessor) [mkWatch "hp" 0x80001000; mkWatch "io" 0x00000010]
           mem0 true "GameSettings/" "GALE01" ∅ false table0 [].

(** [world0] after a first rebuild. *)
Definition world1 : World (MA:=memory_accessor) :=
  default world0 (Update (NR:=number_reader) world0).

(** A user edit of the cell at ([row], [column]) to [s]; [row] is [None]
    for the cells of the last row that carry no data. *)
Definition edit (row : option Z) (column : option Z) (s : string) : Item :=
  mkItem s None row column DefaultFlags.

Definition ini0 : IniFile :=
  [("Core", ["CPUThread = True"]); ("Watches", ["80003000 lives"]);
   ("Gecko", ["$patch"; "04000000 00000000"])].

Definition world_with_file : World (MA:=memory_accessor) :=
  set_files {["GameSettings/GALE01.ini" := ini0]} world1.

End Sample.

(** ** Facts about the Qt text helpers *)

Example arg_hex_1000 : arg 4096 8 16 "0" = "00001000".
Proof. reflexivity. Qed.

Example arg_hex_max : arg 4294967295 8 16 "0" = "ffffffff".
Proof. reflexivity. Qed.

Example number_dec : number 305419896 10 = "305419896" ∧ number 0 10 = "0".
Proof. split; reflexivity. Qed.

Lemma isEmpty_true s : isEmpty s = true ↔ s = "".
Proof. destruct s; simpl; split; congruence. Qed.

Lemma isEmpty_false s : isEmpty s = false ↔ s ≠ "".
Proof. destruct s; simpl; split; congruence. Qed.

Lemma digits_length_ge base fuel n acc :
  String.length acc ≤ String.length (digits base fuel n acc).
Proof.
  revert n acc. induction fuel as [|fuel IH]; intros n acc; simpl; [lia|].
  destruct (n / base =? 0)%N; simpl; [lia|].
  etransitivity; [|apply IH]. simpl. lia.
Qed.

Lemma digits_length_pos base fuel n acc :
  S (String.length acc) ≤ String.length (digits base (S fuel) n acc).
Proof.
  simpl. destruct (n / base =? 0)%N; simpl; [lia|].
  etransitivity; [|apply digits_length_ge]. simpl. lia.
Qed.

Lemma digits_length_le base k fuel n acc :
  (1 < base)%N → (n < base ^ N.of_nat (S k))%N →
  String.length (digits base fuel n acc) ≤ S k + String.length acc.
Proof.
  intros Hb. revert fuel n acc.
  induction k as [|k IH]; intros fuel n acc Hn.
  - destruct fuel as [|fuel]; simpl; [lia|].
    replace (base ^ N.of_nat 1)%N with base in Hn by (simpl; rewrite N.pow_1_r; done).
    rewrite (N.div_small n base Hn). simpl. lia.
  - destruct fuel as [|fuel]; simpl; [lia|].
    destruct (n / base =? 0)%N; simpl; [lia|].
    etransitivity; [apply IH|simpl; lia].
    apply N.Div0.div_lt_upper_bound.
    rewrite <- N.pow_succ_r'. rewrite <- Nat2N.inj_succ. exact Hn.
Qed.

Lemma number_not_empty n base : isEmpty (number n base) = false.
Proof.
  unfold number. pose proof (digits_length_pos base (N.to_nat (N.log2 n)) n "") as Hl.
  destruct (digits base (S (N.to_nat (N.log2 n))) n ""); simpl in *; [lia|done].
Qed.

Lemma fill_length k c s : String.length (fill k c s) = k + String.length s.
Proof. induction k as [|k IH]; simpl; lia. Qed.

Lemma arg_length_ge n width base c : width ≤ String.length (arg n width base c).
Proof. unfold arg. rewrite fill_length. lia. Qed.

Lemma arg_not_empty n width base c : isEmpty (arg n width base c) = false.
Proof.
  unfold arg. pose proof (number_not_empty n base) as Hn.
  destruct (width - String.length (number n base)); simpl; done.
Qed.

(** A 32-bit value in hexadecimal fills the eight-character field
    exactly. *)
Lemma arg_hex8_length (n : N) c :
  (n < 2 ^ 32)%N → String.length (arg n 8 16 c) = 8.
Proof.
  intros Hn. unfold arg. rewrite fill_length.
  pose proof (digits_length_le 16 7 (S (N.to_nat (N.log2 n))) n "") as Hle.
  unfold number. simpl String.length in Hle.
  assert (String.length (digits 16 (S (N.to_nat (N.log2 n))) n "") ≤ 8) as Hle'.
  { etransitivity; [apply Hle|]; [lia| |lia].
    replace (16 ^ N.of_nat 8)%N with (2 ^ 32)%N by reflexivity. exact Hn. }
  lia.
Qed.

(** ** Facts about the table *)

Lemma place_columnCount r c it t : columnCount (place r c it t) = columnCount t.
Proof. unfold place. destruct (inside r c t); done. Qed.

Lemma place_rowCount r c it t : rowCount (place r c it t) = rowCount t.
Proof. unfold place. destruct (inside r c t); done. Qed.

Lemma place_header r c it t :
  horizontalHeaderLabels (place r c it t) = horizontalHeaderLabels t.
Proof. unfold place. destruct (inside r c t); done. Qed.

Lemma place_lookup r c it t r' c' :
  items (place r c it t) !! (r', c') =
  if bool_decide (r' = r ∧ c' = c ∧ r < rowCount t ∧ c < columnCount t) then Some it
  else items t !! (r', c').
Proof.
  unfold place, inside.
  destruct (decide (r < rowCount t)); destruct (decide (c < columnCount t));
    rewrite ?(bool_decide_eq_true_2 (r < rowCount t)),
      ?(bool_decide_eq_false_2 (r < rowCount t)),
      ?(bool_decide_eq_true_2 (c < columnCount t)),
      ?(bool_decide_eq_false_2 (c < columnCount t)) by done; cbn [andb];
    try (rewrite bool_decide_eq_false_2 by tauto; done).
  cbn [items]. destruct (decide ((r, c) = (r', c'))) as [[= <- <-]|Hne].
  - rewrite bool_decide_eq_true_2 by done. apply lookup_insert_eq.
  - rewrite bool_decide_eq_false_2 by (intros (-> & -> & _); done).
    by apply lookup_insert_ne.
Qed.

(** Settles every [bool_decide] of the goal whose proposition, or its
    negation, is within reach of [lia]. *)
Ltac decide_all :=
  repeat first [ rewrite bool_decide_eq_true_2 by lia
               | rewrite bool_decide_eq_false_2 by lia ].

(** ** Facts about the configuration file *)

Lemma GetLines_SetLines_eq section lines ini :
  GetLines section (SetLines section lines ini) = Some lines.
Proof.
  induction ini as [|[s ls] rest IH]; simpl.
  - by rewrite String.eqb_refl.
  - destruct (String.eqb s section) eqn:E; simpl; rewrite E; done.
Qed.

Lemma GetLines_SetLines_ne section section' lines ini :
  section ≠ section' →
  GetLines section' (SetLines section lines ini) = GetLines section' ini.
Proof.
  intros Hne. induction ini as [|[s ls] rest IH]; simpl.
  - destruct (String.eqb_spec section section'); done.
  - destruct (String.eqb_spec s section) as [->|Hs]; simpl.
    + destruct (String.eqb_spec section section'); done.
    + destruct (String.eqb_spec s section'); done.
Qed.

(** The sections keep their names and their order; only the lines of the
    written section change. *)
Lemma SetLines_other section lines ini :
  filter (λ sl, sl.1 ≠ section) (SetLines section lines ini)
  = filter (λ sl, sl.1 ≠ section) ini.
Proof.
  induction ini as [|[s ls] rest IH]; cbn [SetLines].
  - rewrite filter_cons. cbn [fst]. case_decide; done.
  - destruct (String.eqb_spec s section) as [->|Hs].
    + rewrite !filter_cons. cbn [fst]. case_decide; done.
    + rewrite !filter_cons. cbn [fst]. case_decide; [|done]. by rewrite IH.
Qed.

(** ** The rebuild *)

Section PanelFacts.

Context {MA : MemoryAccessor} {WS : WatchStrings} {NR : NumberReader}.

Implicit Types (w : World) (slot : Slot) (t : Table) (item : Item).

Lemma set_table_id w : set_table (m_table w) w = w.
Proof. by destruct w. Qed.

Lemma setItem_guarded slot r c it w :
  guarded slot → m_updating w = true →
  setItem slot r c it w = Some (set_table (place r c it (m_table w)) w).
Proof.
  intros Hg Hu. unfold setItem, place.
  destruct (inside r c (m_table w)).
  - by apply Hg.
  - by rewrite set_table_id.
Qed.

Lemma set_updating_twice b b' t w :
  set_updating b (set_table t (set_updating b' w)) = set_updating b (set_table t w).
Proof. done. Qed.

Lemma setItem_set_table slot r c it w t :
  guarded slot → m_updating w = true →
  setItem slot r c it (set_table t w) = Some (set_table (place r c it t) w).
Proof. intros Hg Hu. by rewrite setItem_guarded. Qed.

Lemma GetWatch_nat (i : nat) (ws : list Watch) : GetWatch (Z.of_nat i) ws = ws !! i.
Proof.
  unfold GetWatch. rewrite Nat2Z.id.
  destruct (Z.leb_spec 0 (Z.of_nat i)); [done | lia].
Qed.

Lemma Update_row_guarded slot i w t :
  guarded slot → m_updating w = true → i < length (watches w) →
  Update_row slot i (set_table t w) = Some (set_table (store_row w t i) w).
Proof.
  intros Hg Hu Hi. unfold Update_row, store_row.
  rewrite GetWatch_nat. cbn [watches set_table].
  destruct (lookup_lt_is_Some_2 _ _ Hi) as [e He]. rewrite He. cbn [mbind option_bind].
  change (Update_items (set_table t w) i e) with (Update_items w i e).
  destruct (Update_items w i e) as [[[[label address_item] hex] decimal] string_item].
  repeat (rewrite setItem_set_table by done; cbn [mbind option_bind]).
  done.
Qed.

Lemma Update_rows_guarded slot w (l : list nat) t :
  guarded slot → m_updating w = true → (∀ i, i ∈ l → i < length (watches w)) →
  foldl (λ acc i, acc ≫= Update_row slot i) (Some (set_table t w)) l
  = Some (set_table (foldl (store_row w) t l) w).
Proof.
  intros Hg Hu. revert t. induction l as [|i l IH]; intros t Hl; [done|].
  cbn [foldl mbind option_bind].
  rewrite Update_row_guarded; [|done..|apply Hl; left].
  apply IH. intros j Hj. apply Hl. by right.
Qed.

(** With a slot that honours the guard, the rebuild always returns, and
    what it returns is [refreshed]. *)
Lemma Update_guarded slot w : guarded slot → Update_with slot w = Some (refreshed w).
Proof.
  intros Hg.
  pose (w1 := set_updating true (emit Refreshed w)).
  pose (t0 := setHorizontalHeaderLabels
             [tr "Label"; tr "Address"; tr "Hexadecimal"; tr "Decimal"; tr "String"]
             (setRowCount (length (watches w) + 1) (clear (m_table w)))).
  change (Update_with slot w) with
    (w2 ← foldl (λ acc i, acc ≫= Update_row slot i) (Some (set_table t0 w1))
                (seq 0 (length (watches w)));
     w3 ← setItem slot (length (watches w)) 0 (setData_UserRole (-1)%Z newItem) w2;
     w4 ← foldl (λ acc i, acc ≫= setItem slot (length (watches w)) i
                                    (setFlags ItemIsEnabled newItem))
                (Some w3) (seq 1 4);
     Some (set_updating false w4)).
  rewrite (Update_rows_guarded slot w1) by
    (try done; intros i Hi; apply elem_of_seq in Hi; cbn; lia).
  cbn [mbind option_bind].
  rewrite setItem_set_table by done. cbn [mbind option_bind seq foldl].
  repeat (rewrite setItem_set_table by done; cbn [mbind option_bind]).
  change (store_row w1) with (store_row w).
  unfold refreshed, rebuilt. cbn [seq foldl]. fold t0.
  unfold w1. by rewrite set_updating_twice.
Qed.

Lemma OnItemChanged_fuel_guarded fuel : guarded (OnItemChanged_fuel (S fuel)).
Proof. intros w item Hu. cbn [OnItemChanged_fuel]. unfold OnItemChanged_with. by rewrite Hu. Qed.

Lemma no_slot_guarded : guarded no_slot.
Proof. by intros w item _. Qed.

(** One level of nesting is enough for the rebuild. *)
Lemma Update_fuel_enough fuel w : Update_fuel (S fuel) w = Some (refreshed w).
Proof. apply Update_guarded, OnItemChanged_fuel_guarded. Qed.

Lemma Update_refreshed w : Update w = Some (refreshed w).
Proof. apply Update_fuel_enough. Qed.

Lemma OnItemChanged_with_ext (u1 u2 : World → option World) w item :
  (∀ w, u1 w = u2 w) →
  OnItemChanged_with u1 w item = OnItemChanged_with u2 w item.
Proof.
  intros Hu. unfold OnItemChanged_with, DeleteWatch_with.
  destruct (m_updating w || isNull (data_UserRole item)); [done|].
  destruct (toInt (data_UserRole item) =? -1)%Z.
  - destruct (negb (isEmpty (text item))); [apply Hu | done].
  - assert (∀ o : option World, o ≫= (λ w0, u1 w0) = o ≫= (λ w0, u2 w0)) as Hk.
    { intros [w0|]; cbn; [apply Hu | done]. }
    match goal with
    | |- mbind _ ?a = mbind _ ?b => assert (a = b) as ->; [|apply Hk]
    end.
    destruct (toInt (data_UserRole1 item)) as [|[[]|[]|]|]; try done.
    destruct (isEmpty (text item)); [|done].
    destruct (RemoveWatch _ _); cbn; [apply Hu | done].
Qed.

(** Two levels of nesting are enough for the slot: more fuel changes
    nothing. *)
Lemma OnItemChanged_fuel_enough fuel w item :
  OnItemChanged_fuel (S (S fuel)) w item = OnItemChanged w item.
Proof.
  unfold OnItemChanged. cbn [OnItemChanged_fuel].
  apply OnItemChanged_with_ext. intros w'.
  etransitivity; [apply (Update_fuel_enough fuel) | symmetry; apply (Update_fuel_enough 0)].
Qed.

Lemma OnItemChanged_unfold w item :
  OnItemChanged w item = OnItemChanged_with (λ w, Some (refreshed w)) w item.
Proof.
  unfold OnItemChanged. cbn [OnItemChanged_fuel].
  apply OnItemChanged_with_ext. intros w'. apply (Update_fuel_enough 0).
Qed.

(** *** The rebuilt table, cell by cell *)

Lemma store_row_rowCount w t i : rowCount (store_row w t i) = rowCount t.
Proof.
  unfold store_row. destruct (watches w !! i) as [e|]; [|done].
  destruct (Update_items w i e) as [[[[? ?] ?] ?] ?].
  by rewrite !place_rowCount.
Qed.

Lemma store_row_columnCount w t i : columnCount (store_row w t i) = columnCount t.
Proof.
  unfold store_row. destruct (watches w !! i) as [e|]; [|done].
  destruct (Update_items w i e) as [[[[? ?] ?] ?] ?].
  by rewrite !place_columnCount.
Qed.

Lemma store_row_header w t i :
  horizontalHeaderLabels (store_row w t i) = horizontalHeaderLabels t.
Proof.
  unfold store_row. destruct (watches w !! i) as [e|]; [|done].
  destruct (Update_items w i e) as [[[[? ?] ?] ?] ?].
  by rewrite !place_header.
Qed.

Ltac table_dims :=
  rewrite ?place_rowCount, ?place_columnCount, ?store_row_rowCount,
    ?store_row_columnCount.

Lemma store_row_lookup w t i r c :
  i < length (watches w) → i < rowCount t →
  items (store_row w t i) !! (r, c) =
  if bool_decide (r = i ∧ c < columnCount t ∧ c < 5) then row_cells w i !! c
  else items t !! (r, c).
Proof.
  intros Hi Hr. unfold store_row, row_cells.
  destruct (lookup_lt_is_Some_2 _ _ Hi) as [e He]. rewrite He.
  destruct (Update_items w i e) as [[[[label address_item] hex] decimal] string_item].
  rewrite !place_lookup. table_dims.
  destruct (decide (r = i)) as [->|Hne]; [|by decide_all].
  destruct (decide (c < columnCount t)); [|by decide_all].
  destruct c as [|[|[|[|[|c]]]]]; by decide_all.
Qed.

Lemma store_rows_rowCount w t (l : list nat) :
  rowCount (foldl (store_row w) t l) = rowCount t.
Proof.
  revert t. induction l as [|i l IH]; intros t; [done|].
  cbn [foldl]. by rewrite IH, store_row_rowCount.
Qed.

Lemma store_rows_columnCount w t (l : list nat) :
  columnCount (foldl (store_row w) t l) = columnCount t.
Proof.
  revert t. induction l as [|i l IH]; intros t; [done|].
  cbn [foldl]. by rewrite IH, store_row_columnCount.
Qed.

Lemma store_rows_header w t (l : list nat) :
  horizontalHeaderLabels (foldl (store_row w) t l) = horizontalHeaderLabels t.
Proof.
  revert t. induction l as [|i l IH]; intros t; [done|].
  cbn [foldl]. by rewrite IH, store_row_header.
Qed.

Lemma store_rows_lookup w t k r c :
  k ≤ length (watches w) → k ≤ rowCount t →
  items (foldl (store_row w) t (seq 0 k)) !! (r, c) =
  if bool_decide (r < k ∧ c < columnCount t ∧ c < 5) then row_cells w r !! c
  else items t !! (r, c).
Proof.
  induction k as [|k IH]; intros Hk Hr.
  - cbn [seq foldl]. by decide_all.
  - rewrite seq_S, foldl_app. cbn [foldl plus].
    rewrite store_row_lookup by (rewrite ?store_rows_rowCount; lia).
    rewrite store_rows_columnCount, IH by lia.
    destruct (decide (c < columnCount t ∧ c < 5));
      destruct (decide (r < k));
      destruct (decide (r = k)) as [->|Hne]; by decide_all.
Qed.

Lemma row_cells_entry w r e :
  watches w !! r = Some e →
  row_cells w r =
  let '(label, address_item, hex, decimal, string_item) := Update_items w r e in
  [label; address_item; hex; decimal; string_item].
Proof. intros He. unfold row_cells. by rewrite He. Qed.

Lemma row_cells_sentinel w :
  row_cells w (length (watches w)) =
  setData_UserRole (-1)%Z newItem :: replicate 4 (setFlags ItemIsEnabled newItem).
Proof.
  unfold row_cells. rewrite (lookup_ge_None_2 (watches w)) by lia.
  by rewrite bool_decide_eq_true_2.
Qed.

Lemma row_cells_beyond w r : length (watches w) < r → row_cells w r = [].
Proof.
  intros Hr. unfold row_cells. rewrite (lookup_ge_None_2 (watches w)) by lia.
  rewrite bool_decide_eq_false_2 by lia. done.
Qed.

Lemma row_cells_width w r c : 5 ≤ c → row_cells w r !! c = None.
Proof.
  intros Hc. apply lookup_ge_None_2. unfold row_cells.
  destruct (watches w !! r) as [e|].
  - destruct (Update_items w r e) as [[[[? ?] ?] ?] ?]. cbn. lia.
  - case_bool_decide; cbn; lia.
Qed.

Lemma rebuilt_rowCount w : rowCount (rebuilt w) = length (watches w) + 1.
Proof.
  unfold rebuilt. cbn [seq foldl]. by rewrite !place_rowCount, store_rows_rowCount.
Qed.

Lemma rebuilt_columnCount w : columnCount (rebuilt w) = columnCount (m_table w).
Proof.
  unfold rebuilt. cbn [seq foldl]. by rewrite !place_columnCount, store_rows_columnCount.
Qed.

Lemma rebuilt_header w :
  horizontalHeaderLabels (rebuilt w) =
  take (columnCount (m_table w)) ["Label"; "Address"; "Hexadecimal"; "Decimal"; "String"].
Proof.
  unfold rebuilt. cbn [seq foldl]. by rewrite !place_header, store_rows_header.
Qed.

(** Every cell of the rebuilt table: row [r] holds [row_cells w r], cut to
    the columns the table has. *)
Lemma rebuilt_lookup w r c :
  items (rebuilt w) !! (r, c) =
  if bool_decide (c < columnCount (m_table w)) then row_cells w r !! c else None.
Proof.
  unfold rebuilt. cbn [seq foldl]. rewrite !place_lookup.
  rewrite ?place_rowCount, ?place_columnCount, ?store_rows_rowCount,
    ?store_rows_columnCount.
  rewrite store_rows_lookup by (cbn; lia).
  cbn [rowCount columnCount items setHorizontalHeaderLabels setRowCount clear].
  rewrite map_filter_empty, lookup_empty.
  destruct (decide (c < columnCount (m_table w))) as [Hc|Hc].
  2: { by decide_all. }
  destruct (decide (r < length (watches w))) as [Hlt|Hge].
  - destruct (decide (c < 5)); decide_all; [done|].
    by rewrite row_cells_width by lia.
  - destruct (decide (r = length (watches w))) as [->|Hne].
    + rewrite row_cells_sentinel.
      destruct c as [|[|[|[|[|c]]]]]; by decide_all.
    + rewrite row_cells_beyond by lia. by decide_all.
Qed.

(** The rebuilt table is a function of the column count, the watch list,
    the running state and the memory alone. *)
Lemma rebuilt_ext w1 w2 :
  columnCount (m_table w1) = columnCount (m_table w2) →
  watches w1 = watches w2 → running w1 = running w2 → memory w1 = memory w2 →
  rebuilt w1 = rebuilt w2.
Proof.
  intros Hc Hw Hr Hm.
  assert (∀ r, row_cells w1 r = row_cells w2 r) as Hcells.
  { intros r. unfold row_cells, Update_items. by rewrite Hw, Hr, Hm. }
  pose proof (rebuilt_rowCount w1) as R1. pose proof (rebuilt_rowCount w2) as R2.
  pose proof (rebuilt_columnCount w1) as C1. pose proof (rebuilt_columnCount w2) as C2.
  pose proof (rebuilt_header w1) as H1'. pose proof (rebuilt_header w2) as H2'.
  assert (items (rebuilt w1) = items (rebuilt w2)) as Hitems.
  { apply map_eq. intros [r c]. by rewrite !rebuilt_lookup, Hc, Hcells. }
  destruct (rebuilt w1), (rebuilt w2). cbn in *. congruence.
Qed.

Lemma rebuilt_refreshed w : rebuilt (refreshed w) = rebuilt w.
Proof. apply rebuilt_ext; try done. cbn. apply rebuilt_columnCount. Qed.

Lemma refreshes_emit w : refreshes (emit Refreshed w) = S (refreshes w).
Proof.
  unfold refreshes. cbn [effects emit].
  rewrite filter_app, length_app, filter_cons_True by done. cbn. lia.
Qed.

Lemma refreshes_refreshed w : refreshes (refreshed w) = S (refreshes w).
Proof. apply refreshes_emit. Qed.

Lemma errors_refreshed w : errors (refreshed w) = errors w.
Proof.
  unfold errors. cbn [effects refreshed set_updating set_table emit].
  rewrite filter_app, filter_cons_False by (cbn; tauto).
  by rewrite filter_nil, app_nil_r.
Qed.

Lemma errors_critical title msg w :
  errors (emit (MessageBoxCritical title msg) w)
  = errors w ++ [MessageBoxCritical title msg].
Proof.
  unfold errors. cbn [effects emit].
  by rewrite filter_app, filter_cons_True by (cbn; tauto).
Qed.

Lemma Update_items_live w i e :
  let '(label, address_item, hex, decimal, string_item) := Update_items w i e in
  text label = name e
  ∧ text address_item = arg (address e) 8 16 "0"
  ∧ foreground address_item = Some (if live w e then PaletteText else Red)
  ∧ text hex = (if live w e then arg (HostRead_U32 (memory w) (address e)) 8 16 "0" else "")
  ∧ text decimal = (if live w e then number (HostRead_U32 (memory w) (address e)) 10 else "")
  ∧ text string_item = (if live w e then HostGetString (memory w) (address e) 32 else "").
Proof.
  unfold Update_items, live.
  destruct (running w), (HostIsRAMAddress (memory w) (address e)); cbn; done.
Qed.

(** C1. Every watch entry rendered by the rebuild shows its name and its
    address in hexadecimal, zero-padded to (at least) eight digits.  The
    hexadecimal, decimal and string cells hold the 32-bit value read at the
    address (hexadecimal padded to eight digits, decimal) and the string
    read there with a bound of 32 exactly when the target is running and the
    address is RAM, and the address cell then has the palette's text brush;
    otherwise the three cells are blank and the address cell is red.  The
    hexadecimal and decimal cells are non-blank if and only if the entry is
    live; the string cell is non-blank only if it is. *)
Theorem Update_renders_entry w i e :
  5 ≤ columnCount (m_table w) →
  watches w !! i = Some e →
  ∃ w' label address_item hex decimal string_item,
    Update w = Some w'
    ∧ items (m_table w') !! (i, 0) = Some label
    ∧ items (m_table w') !! (i, 1) = Some address_item
    ∧ items (m_table w') !! (i, 2) = Some hex
    ∧ items (m_table w') !! (i, 3) = Some decimal
    ∧ items (m_table w') !! (i, 4) = Some string_item
    ∧ text label = name e
    ∧ text address_item = arg (address e) 8 16 "0"
    ∧ 8 ≤ String.length (text address_item)
    ∧ foreground address_item = Some (if live w e then PaletteText else Red)
    ∧ text hex
      = (if live w e then arg (HostRead_U32 (memory w) (address e)) 8 16 "0" else "")
    ∧ text decimal
      = (if live w e then number (HostRead_U32 (memory w) (address e)) 10 else "")
    ∧ text string_item
      = (if live w e then HostGetString (memory w) (address e) 32 else "")
    ∧ (text hex ≠ "" ↔ live w e = true)
    ∧ (text decimal ≠ "" ↔ live w e = true)
    ∧ (text string_item ≠ "" → live w e = true).
Proof.
  intros Hcols He.
  pose proof (Update_items_live w i e) as Hit.
  pose proof (row_cells_entry w i e He) as Hcells.
  destruct (Update_items w i e) as [[[[label address_item] hex] decimal] string_item].
  destruct Hit as (Hl & Ha & Hf & Hh & Hd & Hs).
  exists (refreshed w), label, address_item, hex, decimal, string_item.
  split; [apply Update_refreshed|].
  cbn [m_table refreshed set_updating set_table].
  rewrite !rebuilt_lookup, !bool_decide_eq_true_2 by lia.
  rewrite Hcells. cbn [lookup list_lookup].
  repeat (split; [done|]).
  split; [rewrite Ha; apply arg_length_ge|].
  repeat (split; [done|]).
  rewrite Hh, Hd, Hs.
  destruct (live w e).
  - rewrite <- !isEmpty_false, arg_not_empty, number_not_empty. done.
  - repeat split; done.
Qed.

(** C8. The rebuild is idempotent: a second rebuild right after a first one
    returns and leaves the same table (rows, columns, headers, items with
    their texts and styling) as the first, and neither touches the watch
    list, the running state or the memory. *)
Theorem Update_idempotent w :
  ∃ w1 w2,
    Update w = Some w1 ∧ Update w1 = Some w2
    ∧ m_table w2 = m_table w1
    ∧ watches w2 = watches w ∧ running w2 = running w ∧ memory w2 = memory w.
Proof.
  exists (refreshed w), (refreshed (refreshed w)).
  rewrite !Update_refreshed. repeat split; try done.
  cbn [m_table refreshed set_updating set_table]. apply rebuilt_refreshed.
Qed.

(** C9. While [m_updating] is set the slot ignores every cell edit: it
    returns at once with the world as it was (watch store, memory and
    effects included).  The rebuild holds the flag for its whole duration,
    so a rebuild with the slot connected to [itemChanged] is the rebuild
    with every signal dropped, and it leaves the watch store and the memory
    alone and raises no error box. *)
Theorem OnItemChanged_ignored_while_updating :
  (∀ w item, m_updating w = true → OnItemChanged w item = Some w)
  ∧ (∀ w, Update_with OnItemChanged w = Update_with no_slot w)
  ∧ (∀ w, ∃ w', Update_with OnItemChanged w = Some w'
                ∧ watches w' = watches w ∧ memory w' = memory w
                ∧ errors w' = errors w ∧ m_updating w' = false).
Proof.
  split; [|split].
  - intros w item Hu. by apply (OnItemChanged_fuel_guarded 1).
  - intros w. rewrite (Update_guarded no_slot) by apply no_slot_guarded.
    apply Update_guarded, (OnItemChanged_fuel_guarded 1).
  - intros w. exists (refreshed w).
    split; [apply Update_guarded, (OnItemChanged_fuel_guarded 1)|].
    repeat split; try done. apply errors_refreshed.
Qed.

(** C2. [OnLoad] always returns.  With no configuration file at the path
    it changes nothing at all; with a file that has no "Watches" section the
    watch list is untouched.  With the section present the watch list
    becomes what the store deserialises from the section's lines into the
    cleared (empty) store, whatever it held before, and the table is then
    rebuilt from it.  Memory and files are never touched. *)
Theorem OnLoad_replaces_or_keeps w :
  ∃ w',
    OnLoad w = Some w'
    ∧ memory w' = memory w ∧ files w' = files w
    ∧ match files w !! ini_path w with
      | None => w' = w
      | Some ini =>
          match GetLines "Watches" ini with
          | None => watches w' = watches w
          | Some lines =>
              watches w' = LoadWatchesFromStrings lines []
              ∧ m_table w' = rebuilt w'
              ∧ refreshes w' = S (refreshes w)
          end
      end.
Proof.
  unfold OnLoad. destruct (files w !! ini_path w) as [ini|].
  - rewrite Update_refreshed. eexists. split; [done|].
    destruct (GetLines "Watches" ini) as [lines|]; repeat split; try done.
    + cbn [m_table refreshed set_updating set_table]. by rewrite rebuilt_refreshed.
    + by rewrite refreshes_refreshed.
  - by exists w.
Qed.

(** C10. [OnSave] rewrites only the "Watches" section of the file at the
    path: the file it leaves has the other sections of the file that was
    there (none when there was no file) with their names, order and lines;
    the lines of every section other than "Watches" read back the same; the
    "Watches" section holds the serialised watch list; no other file and
    nothing else of the world changes. *)
Theorem OnSave_keeps_other_sections w :
  ∃ ini',
    files (OnSave w) !! ini_path w = Some ini'
    ∧ filter (λ sl, sl.1 ≠ "Watches") ini'
      = filter (λ sl, sl.1 ≠ "Watches") (default [] (files w !! ini_path w))
    ∧ (∀ section, section ≠ "Watches" →
         GetLines section ini' = files w !! ini_path w ≫= GetLines section)
    ∧ GetLines "Watches" ini' = Some (SaveWatchesToStrings (watches w))
    ∧ (∀ path, path ≠ ini_path w → files (OnSave w) !! path = files w !! path)
    ∧ watches (OnSave w) = watches w ∧ memory (OnSave w) = memory w.
Proof.
  unfold OnSave. cbn [files set_files watches memory]. eexists.
  split; [apply lookup_insert_eq|].
  split; [apply SetLines_other|].
  split.
  { intros section Hne. rewrite GetLines_SetLines_ne by done.
    by destruct (files w !! ini_path w). }
  split; [apply GetLines_SetLines_eq|].
  split; [|done].
  intros path Hne. by apply lookup_insert_ne.
Qed.

(** *** The edit dispatch *)

Lemma GetWatch_Some_bounds row (ws : list Watch) e :
  GetWatch row ws = Some e → (0 ≤ row)%Z ∧ ws !! Z.to_nat row = Some e.
Proof.
  unfold GetWatch. destruct (Z.leb_spec 0 row); [done | discriminate].
Qed.

(** An idle edit of a cell of an existing row: the column's action, then a
    rebuild. *)
Lemma OnItemChanged_row w item row :
  m_updating w = false → data_UserRole item = Some row → row ≠ (-1)%Z →
  OnItemChanged w item =
  w1 ← match toInt (data_UserRole1 item) with
       | 0%Z =>
           if isEmpty (text item)
           then ws ← RemoveWatch row (watches w); Some (refreshed (set_watches ws w))
           else ws ← UpdateWatchName row (text item) (watches w);
                Some (set_watches ws w)
       | 1%Z | 2%Z | 3%Z =>
           match toUInt (text item)
                   (if (toInt (data_UserRole1 item) <? 3)%Z then 16 else 10)%N with
           | Some value =>
               if (toInt (data_UserRole1 item) =? 1)%Z
               then ws ← UpdateWatchAddress row value (watches w);
                    Some (set_watches ws w)
               else e ← GetWatch row (watches w);
                    Some (set_memory (HostWrite_U32 value (address e) (memory w)) w)
           | None =>
               Some (emit (MessageBoxCritical "Error" "Invalid input provided") w)
           end
       | _ => Some w
       end;
  Some (refreshed w1).
Proof.
  intros Hu Hrow Hne. rewrite OnItemChanged_unfold.
  unfold OnItemChanged_with, DeleteWatch_with. rewrite Hu, Hrow.
  change (toInt (Some row)) with row. cbn [isNull orb].
  destruct (Z.eqb_spec row (-1)); [done|]. done.
Qed.

(** C3. An idle edit of the hexadecimal or decimal cell of an existing
    entry whose text parses (base 16 for the hexadecimal column, base 10 for
    the decimal column) writes the parsed value to memory at the entry's
    current address and leaves the watch list as it was; no error box is
    raised. *)
Theorem OnItemChanged_value_edit_writes_memory w item row column e value :
  m_updating w = false →
  data_UserRole item = Some row →
  data_UserRole1 item = Some column →
  GetWatch row (watches w) = Some e →
  (column = 2%Z ∧ toUInt (text item) 16%N = Some value)
  ∨ (column = 3%Z ∧ toUInt (text item) 10%N = Some value) →
  ∃ w',
    OnItemChanged w item = Some w'
    ∧ memory w' = HostWrite_U32 value (address e) (memory w)
    ∧ watches w' = watches w
    ∧ errors w' = errors w.
Proof.
  intros Hu Hrow Hcol He Hparse.
  destruct (GetWatch_Some_bounds _ _ _ He) as [Hge _].
  rewrite (OnItemChanged_row w item row) by (try done; lia).
  rewrite Hcol. change (toInt (Some ?c)) with c.
  destruct Hparse as [[-> Hp]|[-> Hp]]; cbn [Z.ltb Z.eqb Z.compare Pos.compare Pos.compare_cont];
    rewrite Hp, He; cbn [mbind option_bind];
    eexists; (split; [done|]); repeat split; try done; by rewrite errors_refreshed.
Qed.

(** C4. An idle edit of the address, hexadecimal or decimal cell of an
    existing entry whose text does not parse in the column's base raises the
    error box and mutates nothing: the watch list, the memory and the files
    are as before. *)
Theorem OnItemChanged_invalid_input w item row column e :
  m_updating w = false →
  data_UserRole item = Some row →
  data_UserRole1 item = Some column →
  GetWatch row (watches w) = Some e →
  ((column = 1%Z ∨ column = 2%Z) ∧ toUInt (text item) 16%N = None)
  ∨ (column = 3%Z ∧ toUInt (text item) 10%N = None) →
  ∃ w',
    OnItemChanged w item = Some w'
    ∧ watches w' = watches w
    ∧ memory w' = memory w
    ∧ files w' = files w
    ∧ errors w' = errors w ++ [MessageBoxCritical "Error" "Invalid input provided"].
Proof.
  intros Hu Hrow Hcol He Hparse.
  destruct (GetWatch_Some_bounds _ _ _ He) as [Hge _].
  rewrite (OnItemChanged_row w item row) by (try done; lia).
  rewrite Hcol. change (toInt (Some ?c)) with c.
  destruct Hparse as [[[-> | ->] Hp]|[-> Hp]];
    cbn [Z.ltb Z.eqb Z.compare Pos.compare Pos.compare_cont];
    rewrite Hp; cbn [mbind option_bind];
    eexists; (split; [done|]); repeat split; try done;
    by rewrite errors_refreshed, errors_critical.
Qed.

Lemma refreshes_critical title msg w :
  refreshes (emit (MessageBoxCritical title msg) w) = refreshes w.
Proof.
  unfold refreshes. cbn [effects emit].
  rewrite filter_app, filter_cons_False by (cbn; tauto).
  by rewrite filter_nil, app_nil_r.
Qed.

Lemma refreshed_in_sync w : m_table (refreshed w) = rebuilt (refreshed w).
Proof. by rewrite rebuilt_refreshed. Qed.

Lemma refreshed_last w : last (effects (refreshed w)) = Some Refreshed.
Proof. cbn [effects refreshed set_updating set_table emit]. apply last_snoc. Qed.

(** C5, as the code has it.  Every idle edit of a cell of an existing
    entry ends in a rebuild of the table, whatever the column and whatever
    the text: also when the text does not parse, where the rebuild follows
    the error box.  So does an idle edit of the last row's label cell with a
    non-empty text.  The rebuild is the last thing that happens, and it
    leaves the table in step with the world. *)
Theorem OnItemChanged_refreshes w item row :
  m_updating w = false →
  data_UserRole item = Some row →
  (row = (-1)%Z ∧ text item ≠ "") ∨ is_Some (GetWatch row (watches w)) →
  ∃ w',
    OnItemChanged w item = Some w'
    ∧ refreshes w < refreshes w'
    ∧ last (effects w') = Some Refreshed
    ∧ m_table w' = rebuilt w'
    ∧ m_updating w' = false.
Proof.
  intros Hu Hrow [[-> Htext]|[e He]].
  - rewrite OnItemChanged_unfold. unfold OnItemChanged_with.
    rewrite Hu, Hrow.
  change (toInt (Some ?c)) with c. cbn [isNull orb Z.eqb Pos.eqb].
    apply isEmpty_false in Htext. rewrite Htext. cbn [negb].
    eexists. split; [done|].
    rewrite refreshes_refreshed, refreshed_last, <- refreshed_in_sync.
    repeat split; try done. unfold refreshes, AddWatch. cbn. lia.
  - destruct (GetWatch_Some_bounds _ _ _ He) as [Hge _].
    rewrite (OnItemChanged_row w item row) by (try done; lia).
    unfold RemoveWatch, UpdateWatchName, UpdateWatchAddress. rewrite He.
    cbn [mbind option_bind].
    assert (∀ w1, refreshes w ≤ refreshes w1 →
              ∃ w', Some w1 ≫= (λ w1, Some (refreshed w1)) = Some w'
                    ∧ refreshes w < refreshes w'
                    ∧ last (effects w') = Some Refreshed
                    ∧ m_table w' = rebuilt w'
                    ∧ m_updating w' = false) as Hfin.
    { intros w1 Hle. cbn [mbind option_bind]. eexists. split; [done|].
      rewrite refreshes_refreshed, refreshed_last, <- refreshed_in_sync.
      repeat split; try done. lia. }
    destruct (toInt (data_UserRole1 item)) as [|[[?|?|]|[?|?|]|]|?];
      cbn [Z.ltb Z.eqb Z.compare Pos.compare Pos.compare_cont Pos.eqb];
      try (apply Hfin; done).
    + destruct (isEmpty (text item)); apply Hfin; [|done].
      rewrite refreshes_refreshed. unfold refreshes. cbn. lia.
    + destruct (toUInt (text item) 10%N); apply Hfin; [done|].
      by rewrite refreshes_critical.
    + destruct (toUInt (text item) 16%N); apply Hfin; [done|].
      by rewrite refreshes_critical.
    + destruct (toUInt (text item) 16%N); apply Hfin; [done|].
      by rewrite refreshes_critical.
Qed.

(** C6. An idle edit of the name cell of an existing entry.  With an empty
    text exactly that entry is removed: the list is one shorter, the entries
    before it stay where they are and the entries after it move up by one,
    unchanged.  With a non-empty text the entry gets that name and keeps its
    address, and every other entry is as before.  Memory is untouched either
    way. *)
Theorem OnItemChanged_name_edit w item row e :
  m_updating w = false →
  data_UserRole item = Some row →
  data_UserRole1 item = Some 0%Z →
  GetWatch row (watches w) = Some e →
  ∃ w',
    OnItemChanged w item = Some w'
    ∧ memory w' = memory w
    ∧ if isEmpty (text item)
      then watches w' = delete (Z.to_nat row) (watches w)
           ∧ S (length (watches w')) = length (watches w)
           ∧ (∀ j, j < Z.to_nat row → watches w' !! j = watches w !! j)
           ∧ (∀ j, Z.to_nat row ≤ j → watches w' !! j = watches w !! S j)
      else watches w' = <[Z.to_nat row := mkWatch (text item) (address e)]> (watches w)
           ∧ length (watches w') = length (watches w)
           ∧ watches w' !! Z.to_nat row = Some (mkWatch (text item) (address e))
           ∧ (∀ j, j ≠ Z.to_nat row → watches w' !! j = watches w !! j).
Proof.
  intros Hu Hrow Hcol He.
  destruct (GetWatch_Some_bounds _ _ _ He) as [Hge Hl].
  pose proof (lookup_lt_Some _ _ _ Hl) as Hlt.
  rewrite (OnItemChanged_row w item row) by (try done; lia).
  rewrite Hcol. change (toInt (Some ?c)) with c.
  unfold RemoveWatch, UpdateWatchName. rewrite He. cbn [mbind option_bind].
  destruct (isEmpty (text item)); cbn [mbind option_bind];
    eexists; (split; [done|]); (split; [done|]);
    cbn [watches refreshed set_updating set_table emit set_watches].
  - split; [done|]. split; [rewrite length_delete by eauto; lia|].
    split; intros j Hj; [by apply list_lookup_delete_lt | by apply list_lookup_delete_ge].
  - split; [done|]. split; [apply length_insert|].
    split; [by apply list_lookup_insert_eq|].
    intros j Hj. by apply list_lookup_insert_ne.
Qed.

(** C7. An idle edit of the label cell of the last, "new" row.  With a
    non-empty text a watch with that name and address 0 is appended to the
    store and the table is rebuilt; with an empty text nothing happens. *)
Theorem OnItemChanged_new_row w item :
  m_updating w = false →
  data_UserRole item = Some (-1)%Z →
  ∃ w',
    OnItemChanged w item = Some w'
    ∧ if isEmpty (text item)
      then w' = w
      else watches w' = watches w ++ [mkWatch (text item) 0]
           ∧ memory w' = memory w
           ∧ m_table w' = rebuilt w'
           ∧ refreshes w' = S (refreshes w).
Proof.
  intros Hu Hrow. rewrite OnItemChanged_unfold. unfold OnItemChanged_with.
  rewrite Hu, Hrow.
  change (toInt (Some ?c)) with c. cbn [isNull orb Z.eqb Pos.eqb].
  destruct (isEmpty (text item)); cbn [negb]; eexists; (split; [done|]); [done|].
  rewrite <- refreshed_in_sync, refreshes_refreshed. repeat split; done.
Qed.

End PanelFacts.

(** ** Further facts about the widget *)

Section WidgetFacts.

Context {MA : MemoryAccessor} {WS : WatchStrings} {NR : NumberReader}.

Implicit Types (w : World) (t : Table) (item : Item).

Lemma row_cells_length w r :
  length (row_cells w r) = if bool_decide (r ≤ length (watches w)) then 5 else 0.
Proof.
  destruct (decide (r < length (watches w))) as [Hlt|Hge].
  - destruct (lookup_lt_is_Some_2 _ _ Hlt) as [e He].
    rewrite (row_cells_entry w r e He).
    destruct (Update_items w r e) as [[[[? ?] ?] ?] ?]. by decide_all.
  - destruct (decide (r = length (watches w))) as [->|Hne].
    + rewrite row_cells_sentinel. by decide_all.
    + rewrite row_cells_beyond by lia. by decide_all.
Qed.

(** What an item of a rebuilt table can be: an item of an entry's row,
    tagged with its row and column; the label of the last row, tagged with
    row -1; or one of the four untagged, non-editable items of the last
    row. *)
Lemma row_cells_inv w r c it :
  row_cells w r !! c = Some it →
  (∃ e, watches w !! r = Some e
        ∧ data_UserRole it = Some (Z.of_nat r)
        ∧ data_UserRole1 it = Some (Z.of_nat c)
        ∧ flags it = (if bool_decide (c = 4) then ItemIsEnabled else DefaultFlags))
  ∨ (r = length (watches w) ∧ c = 0 ∧ it = setData_UserRole (-1)%Z newItem)
  ∨ (r = length (watches w) ∧ 1 ≤ c < 5 ∧ it = setFlags ItemIsEnabled newItem).
Proof.
  intros Hit.
  destruct (decide (r < length (watches w))) as [Hlt|Hge].
  - left. destruct (lookup_lt_is_Some_2 _ _ Hlt) as [e He]. exists e. split; [done|].
    rewrite (row_cells_entry w r e He) in Hit. unfold Update_items in Hit.
    destruct (running w), (HostIsRAMAddress (memory w) (address e));
      destruct c as [|[|[|[|[|c]]]]]; cbn in Hit; simplify_eq; done.
  - right. destruct (decide (r = length (watches w))) as [->|Hne].
    + rewrite row_cells_sentinel in Hit.
      destruct c as [|[|[|[|[|c]]]]]; cbn in Hit; simplify_eq;
        [left | right ..]; (split; [done|]); (split; [lia | done]).
    + rewrite row_cells_beyond in Hit by lia. done.
Qed.

Lemma settled_lookup w r c :
  settled w →
  items (m_table w) !! (r, c) = if bool_decide (c < 5) then row_cells w r !! c else None.
Proof.
  intros (Hc & _ & Ht). rewrite Ht, rebuilt_lookup, Hc. done.
Qed.

Lemma refreshed_settled w : columnCount (m_table w) = 5 → settled (refreshed w).
Proof.
  intros Hc. split; [|split].
  - cbn [m_table refreshed set_updating set_table]. by rewrite rebuilt_columnCount.
  - done.
  - apply refreshed_in_sync.
Qed.

(** X1. The shape of the table a rebuild leaves: one more row than there
    are watches, the columns it had, the five header labels (cut to the
    columns there are), and an item exactly at the positions of rows 0..size
    and the first five columns. *)
Theorem Update_table_shape w :
  ∃ w',
    Update w = Some w'
    ∧ rowCount (m_table w') = length (watches w) + 1
    ∧ columnCount (m_table w') = columnCount (m_table w)
    ∧ horizontalHeaderLabels (m_table w')
      = take (columnCount (m_table w))
             ["Label"; "Address"; "Hexadecimal"; "Decimal"; "String"]
    ∧ ∀ r c, is_Some (items (m_table w') !! (r, c))
             ↔ r ≤ length (watches w) ∧ c < 5 ∧ c < columnCount (m_table w).
Proof.
  exists (refreshed w). split; [apply Update_refreshed|].
  cbn [m_table refreshed set_updating set_table].
  split; [apply rebuilt_rowCount|]. split; [apply rebuilt_columnCount|].
  split; [apply rebuilt_header|].
  intros r c. rewrite rebuilt_lookup.
  destruct (decide (c < columnCount (m_table w))) as [Hc|Hc]; decide_all.
  - rewrite lookup_lt_is_Some, row_cells_length.
    destruct (decide (r ≤ length (watches w))); decide_all; lia.
  - split; [intros [? ?]; done | lia].
Qed.

(** X2. The items of an entry's row carry their position: row under
    [Qt::UserRole], column under [Qt::UserRole + 1]; the string item alone
    is not editable. *)
Theorem Update_tags_entry_items w i e c :
  5 ≤ columnCount (m_table w) →
  watches w !! i = Some e →
  c < 5 →
  ∃ w' it,
    Update w = Some w'
    ∧ items (m_table w') !! (i, c) = Some it
    ∧ data_UserRole it = Some (Z.of_nat i)
    ∧ data_UserRole1 it = Some (Z.of_nat c)
    ∧ flags it = (if bool_decide (c = 4) then ItemIsEnabled else DefaultFlags).
Proof.
  intros Hcols He Hc.
  pose proof (lookup_lt_Some _ _ _ He) as Hlt.
  assert (is_Some (row_cells w i !! c)) as [it Hit].
  { apply lookup_lt_is_Some. rewrite row_cells_length. decide_all. lia. }
  exists (refreshed w), it. split; [apply Update_refreshed|].
  cbn [m_table refreshed set_updating set_table].
  rewrite rebuilt_lookup. decide_all. split; [done|].
  destruct (row_cells_inv w i c it Hit) as [(e' & _ & H1 & H2 & H3)|[(Hr & _)|(Hr & _)]];
    [done | lia | lia].
Qed.

(** X3. The last row of a rebuilt table is the "new watch" row: its label
    item is blank, editable and tagged with row -1; its other four items are
    blank, not editable and carry no tag. *)
Theorem Update_last_row w c :
  5 ≤ columnCount (m_table w) →
  c < 5 →
  ∃ w',
    Update w = Some w'
    ∧ items (m_table w') !! (length (watches w), c)
      = Some (if bool_decide (c = 0)
              then mkItem "" None (Some (-1)%Z) None DefaultFlags
              else mkItem "" None None None ItemIsEnabled).
Proof.
  intros Hcols Hc. exists (refreshed w). split; [apply Update_refreshed|].
  cbn [m_table refreshed set_updating set_table].
  rewrite rebuilt_lookup, row_cells_sentinel. decide_all.
  destruct c as [|[|[|[|[|c]]]]]; try lia; done.
Qed.

Lemma OnItemChanged_row_returns w item row e :
  m_updating w = false →
  data_UserRole item = Some row →
  GetWatch row (watches w) = Some e →
  is_Some (OnItemChanged w item).
Proof.
  intros Hu Hrow He.
  destruct (GetWatch_Some_bounds _ _ _ He) as [Hge _].
  rewrite (OnItemChanged_row w item row) by (try done; lia).
  unfold RemoveWatch, UpdateWatchName, UpdateWatchAddress. rewrite He.
  cbn [mbind option_bind].
  destruct (toInt (data_UserRole1 item)) as [|[[?|?|]|[?|?|]|]|?];
    cbn [Z.ltb Z.eqb Z.compare Pos.compare Pos.compare_cont Pos.eqb];
    repeat case_match; cbn [mbind option_bind]; eauto.
Qed.

Lemma OnItemChanged_result w item w' :
  OnItemChanged w item = Some w' →
  w' = w
  ∨ ∃ w1, w' = refreshed w1 ∧ columnCount (m_table w1) = columnCount (m_table w).
Proof.
  rewrite OnItemChanged_unfold. unfold OnItemChanged_with, DeleteWatch_with.
  destruct (m_updating w || isNull (data_UserRole item)); [intros [= <-]; by left|].
  destruct (toInt (data_UserRole item) =? -1)%Z.
  - destruct (negb (isEmpty (text item))); intros [= <-]; [right | by left].
    by eexists.
  - intros Hb. apply bind_Some in Hb as (w1 & Ha & [= <-]).
    right. exists w1. split; [done|].
    unfold RemoveWatch, UpdateWatchName, UpdateWatchAddress in Ha.
    destruct (GetWatch (toInt (data_UserRole item)) (watches w)) as [e|];
      destruct (toInt (data_UserRole1 item)) as [|[[?|?|]|[?|?|]|]|?];
      cbn [Z.ltb Z.eqb Z.compare Pos.compare Pos.compare_cont Pos.eqb] in Ha;
      try destruct (isEmpty (text item));
      try destruct (toUInt (text item) _);
      cbn [mbind option_bind] in Ha;
      first [ discriminate Ha | injection Ha as <- ]; try done;
      cbn [m_table refreshed set_updating set_table]; by rewrite rebuilt_columnCount.
Qed.

(** X4. Editing any item of a settled table to any text is safe: the slot
    returns (no row it passes to the store is out of range) and the panel is
    settled again. *)
Theorem OnItemChanged_safe_on_table_items w r c it s :
  settled w →
  items (m_table w) !! (r, c) = Some it →
  ∃ w', OnItemChanged w (setText s it) = Some w' ∧ settled w'.
Proof.
  intros Hs Hit. pose proof Hs as (Hc & Hu & Ht).
  rewrite (settled_lookup w r c Hs) in Hit.
  case_bool_decide; [|done].
  assert (is_Some (OnItemChanged w (setText s it))) as [w' Hw'].
  { destruct (row_cells_inv w r c it Hit)
      as [(e & He & H1 & _)|[(_ & _ & ->)|(_ & _ & ->)]].
    - apply (OnItemChanged_row_returns w _ (Z.of_nat r) e); [done | done |].
      by rewrite GetWatch_nat.
    - rewrite OnItemChanged_unfold. unfold OnItemChanged_with. rewrite Hu.
      cbn. destruct (isEmpty s); eauto.
    - rewrite OnItemChanged_unfold. unfold OnItemChanged_with. rewrite Hu.
      cbn. eauto. }
  exists w'. split; [done|].
  destruct (OnItemChanged_result _ _ _ Hw') as [->|(w1 & -> & Hc1)]; [done|].
  apply refreshed_settled. congruence.
Qed.

Lemma row_cells_texts w r e :
  watches w !! r = Some e →
  text <$> row_cells w r !! 0 = Some (name e)
  ∧ text <$> row_cells w r !! 1 = Some (arg (address e) 8 16 "0")
  ∧ foreground <$> row_cells w r !! 1 = Some (Some (if live w e then PaletteText else Red))
  ∧ text <$> row_cells w r !! 2
    = Some (if live w e then arg (HostRead_U32 (memory w) (address e)) 8 16 "0" else "")
  ∧ text <$> row_cells w r !! 3
    = Some (if live w e then number (HostRead_U32 (memory w) (address e)) 10 else "")
  ∧ text <$> row_cells w r !! 4
    = Some (if live w e then HostGetString (memory w) (address e) 32 else "").
Proof.
  intros He. rewrite (row_cells_entry w r e He).
  pose proof (Update_items_live w r e) as Hit.
  destruct (Update_items w r e) as [[[[label address_item] hex] decimal] string_item].
  destruct Hit as (H1 & H2 & H3 & H4 & H5 & H6).
  cbn [lookup list_lookup fmap option_fmap option_map].
  by rewrite H1, H2, H3, H4, H5, H6.
Qed.

(** X5. An idle edit of the address cell of an existing entry whose text
    parses in base 16 gives that entry the parsed address and keeps its name;
    the other entries, the memory and the error record are as before, and
    the rebuilt table shows the new address in that row. *)
Theorem OnItemChanged_address_edit w item row e value :
  m_updating w = false →
  data_UserRole item = Some row →
  data_UserRole1 item = Some 1%Z →
  GetWatch row (watches w) = Some e →
  toUInt (text item) 16%N = Some value →
  ∃ w',
    OnItemChanged w item = Some w'
    ∧ watches w' !! Z.to_nat row = Some (mkWatch (name e) value)
    ∧ (∀ j, j ≠ Z.to_nat row → watches w' !! j = watches w !! j)
    ∧ length (watches w') = length (watches w)
    ∧ memory w' = memory w
    ∧ errors w' = errors w
    ∧ (5 ≤ columnCount (m_table w) →
       text <$> items (m_table w') !! (Z.to_nat row, 1) = Some (arg value 8 16 "0")).
Proof.
  intros Hu Hrow Hcol He Hp.
  destruct (GetWatch_Some_bounds _ _ _ He) as [Hge Hl].
  pose proof (lookup_lt_Some _ _ _ Hl) as Hlt.
  rewrite (OnItemChanged_row w item row) by (try done; lia).
  rewrite Hcol. change (toInt (Some ?c)) with c.
  cbn [Z.ltb Z.eqb Z.compare Pos.compare Pos.compare_cont Pos.eqb].
  rewrite Hp. unfold UpdateWatchAddress. rewrite He. cbn [mbind option_bind].
  eexists. split; [done|].
  cbn [watches memory refreshed set_updating set_table emit set_watches].
  split; [by apply list_lookup_insert_eq|].
  split; [intros j Hj; by apply list_lookup_insert_ne|].
  split; [apply length_insert|]. split; [done|].
  split; [by rewrite errors_refreshed|].
  intros Hcols. cbn [m_table refreshed set_updating set_table].
  rewrite rebuilt_lookup. cbn [m_table set_watches]. decide_all.
  match goal with
  | |- text <$> row_cells ?w1 _ !! 1 = _ =>
      destruct (row_cells_texts w1 (Z.to_nat row) (mkWatch (name e) value))
        as (_ & Ha & _); [|exact Ha]
  end.
  cbn [watches set_watches]. by apply list_lookup_insert_eq.
Qed.

(** X6. An idle edit event for an existing row in a column other than 0 to
    3 (the string column is 4) changes neither the watch list nor the memory
    and raises no error box; the table is rebuilt once. *)
Theorem OnItemChanged_other_column w item row column :
  m_updating w = false →
  data_UserRole item = Some row →
  row ≠ (-1)%Z →
  data_UserRole1 item = Some column →
  (column < 0 ∨ 3 < column)%Z →
  ∃ w',
    OnItemChanged w item = Some w'
    ∧ watches w' = watches w
    ∧ memory w' = memory w
    ∧ errors w' = errors w
    ∧ refreshes w' = S (refreshes w).
Proof.
  intros Hu Hrow Hne Hcol Hrange.
  rewrite (OnItemChanged_row w item row) by done.
  rewrite Hcol. change (toInt (Some ?c)) with c.
  assert (∃ w', Some w ≫= (λ w1, Some (refreshed w1)) = Some w'
                ∧ watches w' = watches w ∧ memory w' = memory w
                ∧ errors w' = errors w ∧ refreshes w' = S (refreshes w)) as Hfin.
  { eexists. split; [done|]. by rewrite errors_refreshed, refreshes_refreshed. }
  destruct column as [|[[?|?|]|[?|?|]|]|?]; try lia; exact Hfin.
Qed.

(** X7. [DeleteWatch] on the row of an existing entry removes that entry,
    keeps the memory, and rebuilds: the table then has as many rows as there
    were watches (one fewer entry row, plus the last row) and is the rebuild
    of the new world. *)
Theorem DeleteWatch_removes_row w row e :
  GetWatch row (watches w) = Some e →
  ∃ w',
    DeleteWatch row w = Some w'
    ∧ watches w' = delete (Z.to_nat row) (watches w)
    ∧ S (length (watches w')) = length (watches w)
    ∧ rowCount (m_table w') = length (watches w)
    ∧ m_table w' = rebuilt w'
    ∧ memory w' = memory w
    ∧ m_updating w' = false.
Proof.
  intros He. destruct (GetWatch_Some_bounds _ _ _ He) as [Hge Hl].
  pose proof (lookup_lt_Some _ _ _ Hl) as Hlt.
  unfold DeleteWatch, DeleteWatch_with, RemoveWatch. rewrite He.
  cbn [mbind option_bind]. rewrite Update_refreshed.
  eexists. split; [done|].
  assert (S (length (delete (Z.to_nat row) (watches w))) = length (watches w)) as Hlen.
  { rewrite length_delete by eauto. lia. }
  cbn [watches memory m_table m_updating refreshed set_updating set_table emit set_watches].
  split; [done|]. split; [done|].
  split; [rewrite rebuilt_rowCount; cbn [watches set_watches]; lia|].
  split; [by rewrite rebuilt_refreshed | done].
Qed.

(** X8. Creating a watch through the last row and then clearing the label
    of the row it got gives back the watch list there was: the two edits
    undo each other on the store, and the memory is untouched. *)
Theorem new_row_then_clear_label w new_item clear_item :
  m_updating w = false →
  data_UserRole new_item = Some (-1)%Z →
  text new_item ≠ "" →
  data_UserRole clear_item = Some (Z.of_nat (length (watches w))) →
  data_UserRole1 clear_item = Some 0%Z →
  text clear_item = "" →
  ∃ w1 w2,
    OnItemChanged w new_item = Some w1
    ∧ OnItemChanged w1 clear_item = Some w2
    ∧ length (watches w1) = S (length (watches w))
    ∧ watches w2 = watches w
    ∧ memory w2 = memory w.
Proof.
  intros Hu Hnew Htext Hrow Hcol Hclear.
  exists (refreshed (AddWatch (text new_item) 0 w)). eexists.
  split.
  { rewrite OnItemChanged_unfold. unfold OnItemChanged_with. rewrite Hu, Hnew.
    change (toInt (Some ?c)) with c. cbn [isNull orb Z.eqb Pos.eqb].
    apply isEmpty_false in Htext. by rewrite Htext. }
  assert (GetWatch (Z.of_nat (length (watches w)))
            (watches (refreshed (AddWatch (text new_item) 0 w)))
          = Some (mkWatch (text new_item) 0)) as Hget.
  { rewrite GetWatch_nat. cbn [watches refreshed set_updating set_table emit AddWatch
                              set_watches]. unfold SetWatch.
    by rewrite lookup_app_r, Nat.sub_diag by lia. }
  split.
  { rewrite (OnItemChanged_row _ clear_item (Z.of_nat (length (watches w))))
      by (try done; lia).
    rewrite Hcol, Hclear. change (toInt (Some ?c)) with c. cbn [isEmpty].
    unfold RemoveWatch. rewrite Hget. cbn [mbind option_bind]. done. }
  cbn [watches memory refreshed set_updating set_table emit AddWatch set_watches].
  unfold SetWatch. rewrite Nat2Z.id, delete_middle, app_nil_r, length_app.
  cbn [length]. split; [lia | done].
Qed.

Lemma SetLines_SetLines section lines lines' (ini : IniFile) :
  SetLines section lines (SetLines section lines' ini) = SetLines section lines ini.
Proof.
  induction ini as [|[s0 ls] rest IH]; cbn [SetLines].
  - by rewrite String.eqb_refl.
  - destruct (String.eqb s0 section) eqn:E; cbn [SetLines]; rewrite E; [done|].
    by rewrite IH.
Qed.

(** X9. The context menu on a settled table.  With an item of an entry's
    row selected first, the menu offers to delete the watch and to add a
    memory breakpoint, both for that row, then the separator and "Update";
    with an item of the last row selected it offers only the separator and
    "Update".  Whatever it offers can be chosen: no entry of the menu names a
    row the store does not have. *)
Theorem ShowContextMenu_on_table_item w r c it rest :
  settled w →
  items (m_table w) !! (r, c) = Some it →
  ShowContextMenu (it :: rest)
  = (if bool_decide (r < length (watches w))
     then [DeleteWatchAction (Z.of_nat r); AddMemoryBreakpointAction (Z.of_nat r)]
     else [])
    ++ [Separator; UpdateAction]
  ∧ ∀ a, a ∈ ShowContextMenu (it :: rest) → is_Some (trigger a w).
Proof.
  intros Hs Hit. rewrite (settled_lookup w r c Hs) in Hit.
  case_bool_decide; [|done].
  assert (∀ a, a ∈ [Separator; UpdateAction] → is_Some (trigger a w)) as Htail.
  { intros a Ha. apply elem_of_cons in Ha as [->|Ha]; [cbn; eauto|].
    apply elem_of_cons in Ha as [->|Ha]; [|by apply elem_of_nil in Ha].
    cbn [trigger]. rewrite Update_refreshed. eauto. }
  unfold ShowContextMenu.
  destruct (row_cells_inv w r c it Hit)
    as [(e & He & H1 & _)|[(-> & _ & ->)|(-> & _ & ->)]].
  - pose proof (lookup_lt_Some _ _ _ He) as Hlt.
    rewrite H1. change (toInt (Some ?x)) with x. cbn [isNull negb].
    destruct (Z.leb_spec 0 (Z.of_nat r)); [|lia]. decide_all.
    split; [done|]. intros a Ha.
    apply elem_of_app in Ha as [Ha|Ha]; [|by apply Htail].
    apply elem_of_cons in Ha as [->|Ha].
    { cbn [trigger]. unfold DeleteWatch, DeleteWatch_with, RemoveWatch.
      rewrite GetWatch_nat, He. cbn [mbind option_bind].
      rewrite Update_refreshed. eauto. }
    apply elem_of_cons in Ha as [->|Ha]; [|by apply elem_of_nil in Ha].
    cbn [trigger]. unfold AddWatchBreakpoint.
    rewrite GetWatch_nat, He. cbn [mbind option_bind]. eauto.
  - cbn. decide_all. split; [done|]. exact Htail.
  - cbn. decide_all. split; [done|]. exact Htail.
Qed.

(** X10. The memory breakpoint requested for an entry's row of a settled
    table is at the address that row's address item shows. *)
Theorem AddWatchBreakpoint_matches_table w r it :
  settled w →
  r < length (watches w) →
  items (m_table w) !! (r, 1) = Some it →
  ∃ a, AddWatchBreakpoint (Z.of_nat r) w = Some a ∧ text it = arg a 8 16 "0".
Proof.
  intros Hs Hr Hit. rewrite (settled_lookup w r 1 Hs) in Hit.
  rewrite bool_decide_eq_true_2 in Hit by lia.
  destruct (lookup_lt_is_Some_2 _ _ Hr) as [e He].
  exists (address e). unfold AddWatchBreakpoint.
  rewrite GetWatch_nat, He. split; [done|].
  destruct (row_cells_texts w r e He) as (_ & Ha & _).
  rewrite Hit in Ha. cbn [fmap option_fmap option_map] in Ha. by injection Ha.
Qed.

(** X11. Construction leaves the panel settled: five columns, the guard
    cleared, one row per watch and the last row, with the store and the
    memory as they were found and Load and Save disabled. *)
Theorem WatchWidget_new_settled w :
  ∃ wd,
    WatchWidget_new w = Some wd
    ∧ settled (world wd)
    ∧ rowCount (m_table (world wd)) = length (watches w) + 1
    ∧ watches (world wd) = watches w
    ∧ memory (world wd) = memory w
    ∧ m_load_enabled wd = false
    ∧ m_save_enabled wd = false.
Proof.
  unfold WatchWidget_new, CreateWidgets. cbn [world m_load_enabled m_save_enabled].
  rewrite Update_refreshed. cbn [mbind option_bind].
  eexists. split; [done|]. cbn [world m_load_enabled m_save_enabled].
  split; [by apply refreshed_settled|].
  cbn [m_table watches memory refreshed set_updating set_table emit].
  by rewrite rebuilt_rowCount.
Qed.

(** X12. Every operation of the panel keeps it settled: the edit slot on
    any item, Load, Save, the deletion of a row and the rebuild itself each
    leave five columns, the guard cleared and the table equal to the rebuild
    of the world they leave. *)
Theorem panel_operations_keep_settled w :
  settled w →
  (∀ item w', OnItemChanged w item = Some w' → settled w')
  ∧ (∃ w', OnLoad w = Some w' ∧ settled w')
  ∧ settled (OnSave w)
  ∧ (∀ row w', DeleteWatch row w = Some w' → settled w')
  ∧ (∃ w', Update w = Some w' ∧ settled w').
Proof.
  intros Hs. pose proof Hs as (Hc & Hu & Ht).
  split; [|split; [|split; [|split]]].
  - intros item w' Hw'.
    destruct (OnItemChanged_result _ _ _ Hw') as [->|(w1 & -> & Hc1)]; [done|].
    apply refreshed_settled. congruence.
  - unfold OnLoad. destruct (files w !! ini_path w) as [ini|]; [|by exists w].
    rewrite Update_refreshed. eexists. split; [done|].
    apply refreshed_settled. by destruct (GetLines "Watches" ini).
  - unfold OnSave. split; [done|]. split; [done|].
    cbn [m_table set_files]. rewrite Ht at 1. by apply rebuilt_ext.
  - intros row w'. unfold DeleteWatch, DeleteWatch_with.
    destruct (RemoveWatch row (watches w)) as [ws|]; cbn [mbind option_bind]; [|done].
    rewrite Update_refreshed. intros [= <-]. by apply refreshed_settled.
  - rewrite Update_refreshed. eexists. split; [done|]. by apply refreshed_settled.
Qed.

(** X13. When the target is reported not running (debug mode on, a state
    other than Starting), Load and Save are disabled and the rebuilt table
    shows every entry with blank hexadecimal, decimal and string items and a
    red address item, whether or not the address is RAM. *)
Theorem OnEmulationStateChanged_stopped wd state i e :
  is_Starting state = false →
  running (world wd) = false →
  5 ≤ columnCount (m_table (world wd)) →
  watches (world wd) !! i = Some e →
  ∃ wd',
    OnEmulationStateChanged true state wd = Some wd'
    ∧ m_load_enabled wd' = false
    ∧ m_save_enabled wd' = false
    ∧ foreground <$> items (m_table (world wd')) !! (i, 1) = Some (Some Red)
    ∧ text <$> items (m_table (world wd')) !! (i, 2) = Some ""
    ∧ text <$> items (m_table (world wd')) !! (i, 3) = Some ""
    ∧ text <$> items (m_table (world wd')) !! (i, 4) = Some "".
Proof.
  intros Hst Hrun Hcols He. unfold OnEmulationStateChanged.
  cbn [negb world m_load_enabled m_save_enabled]. rewrite Hst. cbn [negb].
  rewrite Update_refreshed. cbn [mbind option_bind].
  eexists. split; [done|]. cbn [world m_load_enabled m_save_enabled].
  split; [done|]. split; [done|].
  cbn [m_table refreshed set_updating set_table].
  rewrite !rebuilt_lookup. decide_all.
  destruct (row_cells_texts (world wd) i e He) as (_ & _ & Hf & H2 & H3 & H4).
  unfold live in *. rewrite Hrun in *. done.
Qed.

(** X14. The emulation-state handler rebuilds the table exactly when debug
    mode is on and the state is not Starting; with debug mode off it changes
    nothing at all, and with debug mode on Load and Save are enabled exactly
    when the target is running. *)
Theorem OnEmulationStateChanged_gating debug_mode state wd :
  ∃ wd',
    OnEmulationStateChanged debug_mode state wd = Some wd'
    ∧ refreshes (world wd')
      = (if debug_mode && negb (is_Starting state)
         then S (refreshes (world wd)) else refreshes (world wd))
    ∧ (debug_mode = false → wd' = wd)
    ∧ (debug_mode = true →
       m_load_enabled wd' = running (world wd)
       ∧ m_save_enabled wd' = running (world wd)
       ∧ watches (world wd') = watches (world wd)
       ∧ memory (world wd') = memory (world wd)).
Proof.
  unfold OnEmulationStateChanged.
  destruct debug_mode; cbn [negb andb world m_load_enabled m_save_enabled].
  - destruct (is_Starting state); cbn [negb].
    + eexists. split; [done|]. cbn [world m_load_enabled m_save_enabled]. done.
    + rewrite Update_refreshed. cbn [mbind option_bind].
      eexists. split; [done|]. cbn [world m_load_enabled m_save_enabled].
      rewrite refreshes_refreshed. done.
  - exists wd. done.
Qed.

(** X15. Load after Save brings back what was saved: whatever the watch
    list has become in between, Load replaces it with what the store
    deserialises from the serialisation of the list that Save wrote. *)
Theorem OnLoad_after_OnSave w ws :
  ∃ w',
    OnLoad (set_watches ws (OnSave w)) = Some w'
    ∧ watches w'
      = LoadWatchesFromStrings (SaveWatchesToStrings (watches w)) []
    ∧ memory w' = memory w.
Proof.
  unfold OnLoad.
  change (ini_path (set_watches ws (OnSave w))) with (ini_path w).
  change (files (set_watches ws (OnSave w))) with (files (OnSave w)).
  unfold OnSave at 1. cbn [files set_files].
  rewrite lookup_insert_eq, GetLines_SetLines_eq, Update_refreshed.
  eexists. split; [done|]. done.
Qed.

(** X16. Saving twice is saving once: a second Save right after a first
    leaves the world, files included, as the first left it. *)
Theorem OnSave_idempotent w : OnSave (OnSave w) = OnSave w.
Proof.
  unfold OnSave.
  cbn [files watches memory running game_settings_dir game_id m_updating m_table
       effects set_files ini_path].
  change (ini_path (set_files _ w)) with (ini_path w).
  rewrite lookup_insert_eq. cbn [default from_option id].
  unfold set_files. cbn. by rewrite SetLines_SetLines, insert_insert_eq.
Qed.

(** X17. A watch created through the last row shows up in the table: the
    table gains a row, the row that was the last row now shows the new name
    and the address 0 in eight hexadecimal digits, and the row after it is
    the new last row. *)
Theorem OnItemChanged_new_row_shows w item :
  settled w →
  data_UserRole item = Some (-1)%Z →
  text item ≠ "" →
  ∃ w',
    OnItemChanged w item = Some w'
    ∧ rowCount (m_table w') = S (rowCount (m_table w))
    ∧ text <$> items (m_table w') !! (length (watches w), 0) = Some (text item)
    ∧ text <$> items (m_table w') !! (length (watches w), 1) = Some (arg 0 8 16 "0")
    ∧ data_UserRole <$> items (m_table w') !! (S (length (watches w)), 0)
      = Some (Some (-1)%Z).
Proof.
  intros (Hc & Hu & Ht) Hrow Htext.
  rewrite OnItemChanged_unfold. unfold OnItemChanged_with. rewrite Hu, Hrow.
  change (toInt (Some ?c)) with c. cbn [isNull orb Z.eqb Pos.eqb].
  apply isEmpty_false in Htext. rewrite Htext. cbn [negb].
  eexists. split; [done|].
  cbn [m_table refreshed set_updating set_table].
  set (w1 := AddWatch (text item) 0 w).
  assert (watches w1 !! length (watches w) = Some (mkWatch (text item) 0)) as He.
  { unfold w1, AddWatch, SetWatch. cbn [watches set_watches].
    by rewrite lookup_app_r, Nat.sub_diag by lia. }
  assert (length (watches w1) = S (length (watches w))) as Hlen.
  { unfold w1, AddWatch, SetWatch. cbn [watches set_watches].
    rewrite length_app. cbn. lia. }
  rewrite rebuilt_rowCount, !rebuilt_lookup, Hlen.
  change (columnCount (m_table w1)) with (columnCount (m_table w)).
  rewrite Hc, Ht, rebuilt_rowCount. decide_all.
  destruct (row_cells_texts w1 _ _ He) as (H0 & H1 & _).
  split; [lia|]. split; [done|]. split; [done|].
  rewrite <- Hlen, row_cells_sentinel. done.
Qed.

End WidgetFacts.

(** ** The panel on the sample target *)

Import Sample.

Example world1_rows : rowCount (m_table world1) = 3 ∧ m_updating world1 = false.
Proof. vm_compute. done. Qed.

Example world1_hp_cells :
  text <$> items (m_table world1) !! (0, 1) = Some "80001000"
  ∧ text <$> items (m_table world1) !! (0, 2) = Some "48690000"
  ∧ text <$> items (m_table world1) !! (0, 3) = Some "1214840832"
  ∧ text <$> items (m_table world1) !! (0, 4) = Some "Hi".
Proof. vm_compute. done. Qed.

Example world1_io_cells :
  (foreground <$> items (m_table world1) !! (1, 1)) = Some (Some Red)
  ∧ text <$> items (m_table world1) !! (1, 2) = Some "".
Proof. vm_compute. done. Qed.

Example address_edit_1000 :
  watches <$> OnItemChanged (NR:=number_reader) world1 (edit (Some 0%Z) (Some 1%Z) "1000")
  = Some [mkWatch "hp" 0x1000; mkWatch "io" 0x10].
Proof. vm_compute. done. Qed.

Lemma Update_renders_entry_witness :
  5 ≤ columnCount (m_table world0)
  ∧ watches world0 !! 0 = Some (mkWatch "hp" 0x80001000)
  ∧ ∃ w' hex,
      Update (NR:=number_reader) world0 = Some w'
      ∧ items (m_table w') !! (0, 2) = Some hex
      ∧ text hex = "48690000".
Proof.
  split; [vm_compute; lia|]. split; [reflexivity|].
  destruct (Update_renders_entry (NR:=number_reader) world0 0 (mkWatch "hp" 0x80001000))
    as (w' & label & address_item & hex & decimal & string_item & HU & _ & _ & Hh & _ & _
        & _ & _ & _ & _ & Ht & _);
    [vm_compute; lia | reflexivity |].
  exists w', hex. split; [exact HU|]. split; [exact Hh|].
  rewrite Ht. vm_compute. reflexivity.
Defined.

Lemma OnItemChanged_value_edit_witness :
  m_updating world1 = false
  ∧ GetWatch 0 (watches world1) = Some (mkWatch "hp" 0x80001000)
  ∧ toUInt (NumberReader:=number_reader) "deadbeef" 16 = Some 0xdeadbeef%N
  ∧ ∃ w',
      OnItemChanged (NR:=number_reader) world1 (edit (Some 0%Z) (Some 2%Z) "deadbeef")
      = Some w'
      ∧ HostRead_U32 (memory w') 0x80001000 = 0xdeadbeef%N
      ∧ watches w' = watches world1.
Proof.
  split; [vm_compute; reflexivity|]. split; [vm_compute; reflexivity|].
  split; [vm_compute; reflexivity|].
  destruct (OnItemChanged_value_edit_writes_memory (NR:=number_reader)
              world1 (edit (Some 0%Z) (Some 2%Z) "deadbeef") 0 2
              (mkWatch "hp" 0x80001000) 0xdeadbeef)
    as (w' & HO & Hm & Hw & _);
    [vm_compute; reflexivity | reflexivity | reflexivity | vm_compute; reflexivity
    | left; split; [reflexivity | vm_compute; reflexivity] |].
  exists w'. split; [exact HO|]. split; [|exact Hw].
  rewrite Hm. vm_compute. reflexivity.
Defined.

Lemma OnItemChanged_invalid_input_witness :
  m_updating world1 = false
  ∧ GetWatch 0 (watches world1) = Some (mkWatch "hp" 0x80001000)
  ∧ toUInt (NumberReader:=number_reader) "zzzz" 16 = None
  ∧ ∃ w',
      OnItemChanged (NR:=number_reader) world1 (edit (Some 0%Z) (Some 1%Z) "zzzz") = Some w'
      ∧ watches w' = watches world1
      ∧ memory w' = memory world1
      ∧ errors w' = [MessageBoxCritical "Error" "Invalid input provided"].
Proof.
  split; [vm_compute; reflexivity|]. split; [vm_compute; reflexivity|].
  split; [vm_compute; reflexivity|].
  destruct (OnItemChanged_invalid_input (NR:=number_reader)
              world1 (edit (Some 0%Z) (Some 1%Z) "zzzz") 0 1 (mkWatch "hp" 0x80001000))
    as (w' & HO & Hw & Hm & _ & He);
    [vm_compute; reflexivity | reflexivity | reflexivity | vm_compute; reflexivity
    | left; split; [left; reflexivity | vm_compute; reflexivity] |].
  exists w'. split; [exact HO|]. split; [exact Hw|]. split; [exact Hm|].
  rewrite He. vm_compute. reflexivity.
Defined.

(** The claim that an edit whose text does not parse triggers no rebuild
    fails: the address cell of row 0 edited to "zzzz" raises the error box
    and is followed by a rebuild. *)
Lemma invalid_input_is_followed_by_refresh :
  toUInt (NumberReader:=number_reader) "zzzz" 16 = None
  ∧ GetWatch 0 (watches world1) = Some (mkWatch "hp" 0x80001000)
  ∧ m_updating world1 = false
  ∧ refreshes world1 = 1
  ∧ refreshes
      <$> OnItemChanged (NR:=number_reader) world1 (edit (Some 0%Z) (Some 1%Z) "zzzz")
    = Some 2
  ∧ effects
      <$> OnItemChanged (NR:=number_reader) world1 (edit (Some 0%Z) (Some 1%Z) "zzzz")
    = Some [Refreshed; MessageBoxCritical "Error" "Invalid input provided"; Refreshed].
Proof. repeat split; vm_compute; reflexivity. Qed.

Lemma OnItemChanged_refreshes_witness :
  m_updating world1 = false
  ∧ is_Some (GetWatch 0 (watches world1))
  ∧ toUInt (NumberReader:=number_reader) "zzzz" 16 = None
  ∧ ∃ w',
      OnItemChanged (NR:=number_reader) world1 (edit (Some 0%Z) (Some 1%Z) "zzzz") = Some w'
      ∧ refreshes world1 < refreshes w'.
Proof.
  split; [vm_compute; reflexivity|]. split; [vm_compute; eauto|].
  split; [vm_compute; reflexivity|].
  destruct (OnItemChanged_refreshes (NR:=number_reader)
              world1 (edit (Some 0%Z) (Some 1%Z) "zzzz") 0)
    as (w' & HO & Hr & _);
    [vm_compute; reflexivity | reflexivity | right; vm_compute; eauto |].
  exists w'. split; [exact HO | exact Hr].
Defined.

Lemma OnItemChanged_name_edit_witness :
  m_updating world1 = false
  ∧ GetWatch 0 (watches world1) = Some (mkWatch "hp" 0x80001000)
  ∧ ∃ w',
      OnItemChanged (NR:=number_reader) world1 (edit (Some 0%Z) (Some 0%Z) "") = Some w'
      ∧ watches w' = [mkWatch "io" 0x10].
Proof.
  split; [vm_compute; reflexivity|]. split; [vm_compute; reflexivity|].
  destruct (OnItemChanged_name_edit (NR:=number_reader)
              world1 (edit (Some 0%Z) (Some 0%Z) "") 0 (mkWatch "hp" 0x80001000))
    as (w' & HO & _ & Hw & _);
    [vm_compute; reflexivity | reflexivity | reflexivity | vm_compute; reflexivity |].
  exists w'. split; [exact HO|]. rewrite Hw. vm_compute. reflexivity.
Defined.

Lemma OnItemChanged_new_row_witness :
  m_updating world1 = false
  ∧ ∃ w',
      OnItemChanged (NR:=number_reader) world1 (edit (Some (-1)%Z) None "lives") = Some w'
      ∧ watches w' = [mkWatch "hp" 0x80001000; mkWatch "io" 0x10; mkWatch "lives" 0].
Proof.
  split; [vm_compute; reflexivity|].
  destruct (OnItemChanged_new_row (NR:=number_reader)
              world1 (edit (Some (-1)%Z) None "lives"))
    as (w' & HO & Hw & _); [vm_compute; reflexivity | reflexivity |].
  exists w'. split; [exact HO|]. rewrite Hw. vm_compute. reflexivity.
Defined.

Lemma OnItemChanged_ignored_witness :
  m_updating (set_updating true world1) = true
  ∧ OnItemChanged (NR:=number_reader) (set_updating true world1)
      (edit (Some 0%Z) (Some 0%Z) "")
    = Some (set_updating true world1).
Proof.
  split; [reflexivity|].
  apply (proj1 (OnItemChanged_ignored_while_updating (NR:=number_reader))).
  reflexivity.
Defined.

Example OnLoad_sample :
  watches <$> OnLoad (WS:=watch_strings) (NR:=number_reader) world_with_file
  = Some [mkWatch "lives" 0x80003000].
Proof. vm_compute. done. Qed.

Example OnSave_sample :
  files (OnSave (WS:=watch_strings) world_with_file) !! "GameSettings/GALE01.ini"
  = Some [("Core", ["CPUThread = True"]);
          ("Watches", ["80001000 hp"; "00000010 io"]);
          ("Gecko", ["$patch"; "04000000 00000000"])].
Proof. vm_compute. done. Qed.

(** ** The rest of the widget on the sample target *)

Lemma Update_tags_entry_items_witness :
  5 ≤ columnCount (m_table world0)
  ∧ watches world0 !! 0 = Some (mkWatch "hp" 0x80001000)
  ∧ ∃ w' it,
      Update (NR:=number_reader) world0 = Some w'
      ∧ items (m_table w') !! (0, 4) = Some it
      ∧ data_UserRole1 it = Some 4%Z
      ∧ flags it = ItemIsEnabled.
Proof.
  split; [vm_compute; lia|]. split; [reflexivity|].
  destruct (Update_tags_entry_items (NR:=number_reader) world0 0
              (mkWatch "hp" 0x80001000) 4)
    as (w' & it & HU & Hit & _ & H2 & H3); [vm_compute; lia | reflexivity | lia |].
  exists w', it. split; [exact HU|]. split; [exact Hit|]. split; [exact H2 | exact H3].
Defined.

Lemma Update_last_row_witness :
  5 ≤ columnCount (m_table world0)
  ∧ ∃ w',
      Update (NR:=number_reader) world0 = Some w'
      ∧ items (m_table w') !! (2, 0) = Some (mkItem "" None (Some (-1)%Z) None DefaultFlags).
Proof.
  split; [vm_compute; lia|].
  destruct (Update_last_row (NR:=number_reader) world0 0) as (w' & HU & Hit);
    [vm_compute; lia | lia |].
  exists w'. split; [exact HU | exact Hit].
Defined.

Lemma OnItemChanged_safe_witness :
  settled world1
  ∧ items (m_table world1) !! (1, 1)
    = Some (mkItem "00000010" (Some Red) (Some 1%Z) (Some 1%Z) DefaultFlags)
  ∧ ∃ w',
      OnItemChanged (NR:=number_reader) world1
        (setText "80001004" (mkItem "00000010" (Some Red) (Some 1%Z) (Some 1%Z) DefaultFlags))
      = Some w'
      ∧ settled w'.
Proof.
  assert (settled world1) as Hs by (repeat split; vm_compute; reflexivity).
  split; [exact Hs|]. split; [vm_compute; reflexivity|].
  apply (OnItemChanged_safe_on_table_items (NR:=number_reader) world1 1 1);
    [exact Hs | vm_compute; reflexivity].
Defined.

Lemma OnItemChanged_address_edit_witness :
  m_updating world1 = false
  ∧ GetWatch 0 (watches world1) = Some (mkWatch "hp" 0x80001000)
  ∧ toUInt (NumberReader:=number_reader) "1000" 16 = Some 0x1000%N
  ∧ ∃ w',
      OnItemChanged (NR:=number_reader) world1 (edit (Some 0%Z) (Some 1%Z) "1000") = Some w'
      ∧ watches w' !! 0 = Some (mkWatch "hp" 0x1000)
      ∧ text <$> items (m_table w') !! (0, 1) = Some "00001000".
Proof.
  split; [vm_compute; reflexivity|]. split; [vm_compute; reflexivity|].
  split; [vm_compute; reflexivity|].
  destruct (OnItemChanged_address_edit (NR:=number_reader) world1
              (edit (Some 0%Z) (Some 1%Z) "1000") 0 (mkWatch "hp" 0x80001000) 0x1000)
    as (w' & HO & H1 & _ & _ & _ & _ & Hshow);
    [vm_compute; reflexivity | reflexivity | reflexivity | vm_compute; reflexivity
    | vm_compute; reflexivity |].
  exists w'. split; [exact HO|]. split; [exact H1|].
  apply Hshow. vm_compute. lia.
Defined.

Lemma OnItemChanged_other_column_witness :
  m_updating world1 = false
  ∧ ∃ w',
      OnItemChanged (NR:=number_reader) world1 (edit (Some 0%Z) (Some 4%Z) "text") = Some w'
      ∧ watches w' = watches world1
      ∧ memory w' = memory world1.
Proof.
  split; [vm_compute; reflexivity|].
  destruct (OnItemChanged_other_column (NR:=number_reader) world1
              (edit (Some 0%Z) (Some 4%Z) "text") 0 4)
    as (w' & HO & Hw & Hm & _);
    [vm_compute; reflexivity | reflexivity | lia | reflexivity | lia |].
  exists w'. split; [exact HO|]. split; [exact Hw | exact Hm].
Defined.

Lemma DeleteWatch_removes_row_witness :
  GetWatch 1 (watches world1) = Some (mkWatch "io" 0x10)
  ∧ ∃ w',
      DeleteWatch (NR:=number_reader) 1 world1 = Some w'
      ∧ watches w' = [mkWatch "hp" 0x80001000]
      ∧ rowCount (m_table w') = 2.
Proof.
  split; [vm_compute; reflexivity|].
  destruct (DeleteWatch_removes_row (NR:=number_reader) world1 1 (mkWatch "io" 0x10))
    as (w' & HD & Hw & _ & Hr & _); [vm_compute; reflexivity|].
  exists w'. split; [exact HD|]. split.
  - rewrite Hw. vm_compute. reflexivity.
  - rewrite Hr. vm_compute. reflexivity.
Defined.

Lemma new_row_then_clear_label_witness :
  m_updating world1 = false
  ∧ length (watches world1) = 2
  ∧ ∃ w1 w2,
      OnItemChanged (NR:=number_reader) world1 (edit (Some (-1)%Z) None "lives") = Some w1
      ∧ OnItemChanged (NR:=number_reader) w1 (edit (Some 2%Z) (Some 0%Z) "") = Some w2
      ∧ watches w2 = watches world1.
Proof.
  split; [vm_compute; reflexivity|]. split; [vm_compute; reflexivity|].
  destruct (new_row_then_clear_label (NR:=number_reader) world1
              (edit (Some (-1)%Z) None "lives") (edit (Some 2%Z) (Some 0%Z) ""))
    as (w1 & w2 & H1 & H2 & _ & Hw & _);
    [vm_compute; reflexivity | reflexivity | discriminate | vm_compute; reflexivity
    | reflexivity | reflexivity |].
  exists w1, w2. split; [exact H1|]. split; [exact H2 | exact Hw].
Defined.

Lemma ShowContextMenu_witness :
  settled world1
  ∧ items (m_table world1) !! (0, 0)
    = Some (mkItem "hp" None (Some 0%Z) (Some 0%Z) DefaultFlags)
  ∧ ShowContextMenu [mkItem "hp" None (Some 0%Z) (Some 0%Z) DefaultFlags]
    = [DeleteWatchAction 0; AddMemoryBreakpointAction 0; Separator; UpdateAction]
  ∧ is_Some (trigger (NR:=number_reader) (DeleteWatchAction 0) world1).
Proof.
  assert (settled world1) as Hs by (repeat split; vm_compute; reflexivity).
  split; [exact Hs|]. split; [vm_compute; reflexivity|].
  destruct (ShowContextMenu_on_table_item (NR:=number_reader) world1 0 0
              (mkItem "hp" None (Some 0%Z) (Some 0%Z) DefaultFlags) [])
    as (Hmenu & Hall); [exact Hs | vm_compute; reflexivity |].
  split; [exact Hmenu|].
  apply Hall. rewrite Hmenu. vm_compute. left.
Defined.

Lemma AddWatchBreakpoint_witness :
  settled world1
  ∧ 0 < length (watches world1)
  ∧ items (m_table world1) !! (0, 1)
    = Some (mkItem "80001000" (Some PaletteText) (Some 0%Z) (Some 1%Z) DefaultFlags)
  ∧ ∃ a, AddWatchBreakpoint 0 world1 = Some a ∧ "80001000" = arg a 8 16 "0".
Proof.
  assert (settled world1) as Hs by (repeat split; vm_compute; reflexivity).
  split; [exact Hs|]. split; [vm_compute; lia|]. split; [vm_compute; reflexivity|].
  apply (AddWatchBreakpoint_matches_table world1 0
           (mkItem "80001000" (Some PaletteText) (Some 0%Z) (Some 1%Z) DefaultFlags));
    [exact Hs | vm_compute; lia | vm_compute; reflexivity].
Defined.

Lemma panel_operations_keep_settled_witness :
  settled world1 ∧ settled (OnSave (WS:=watch_strings) world1).
Proof.
  assert (settled world1) as Hs by (repeat split; vm_compute; reflexivity).
  split; [exact Hs|].
  exact (proj1 (proj2 (proj2
    (panel_operations_keep_settled (WS:=watch_strings) (NR:=number_reader) world1 Hs)))).
Defined.

Lemma OnEmulationStateChanged_stopped_witness :
  ∃ wd',
    OnEmulationStateChanged (NR:=number_reader) true Stopped
      (mkWidget (set_table (m_table world1)
                   (mkWorld (MA:=memory_accessor) (watches world0) mem0 false
                            "GameSettings/" "GALE01" ∅ false table0 []))
                true true)
    = Some wd'
    ∧ m_load_enabled wd' = false
    ∧ text <$> items (m_table (world wd')) !! (0, 2) = Some "".
Proof.
  destruct (OnEmulationStateChanged_stopped (NR:=number_reader)
              (mkWidget (set_table (m_table world1)
                           (mkWorld (MA:=memory_accessor) (watches world0) mem0 false
                                    "GameSettings/" "GALE01" ∅ false table0 []))
                        true true)
              Stopped 0 (mkWatch "hp" 0x80001000))
    as (wd' & HO & Hl & _ & _ & H2 & _);
    [reflexivity | reflexivity | vm_compute; lia | reflexivity |].
  exists wd'. split; [exact HO|]. split; [exact Hl | exact H2].
Defined.

Lemma OnItemChanged_new_row_shows_witness :
  settled world1
  ∧ ∃ w',
      OnItemChanged (NR:=number_reader) world1 (edit (Some (-1)%Z) None "lives") = Some w'
      ∧ rowCount (m_table w') = 4
      ∧ text <$> items (m_table w') !! (2, 0) = Some "lives"
      ∧ text <$> items (m_table w') !! (2, 1) = Some "00000000".
Proof.
  assert (settled world1) as Hs by (repeat split; vm_compute; reflexivity).
  split; [exact Hs|].
  destruct (OnItemChanged_new_row_shows (NR:=number_reader) world1
              (edit (Some (-1)%Z) None "lives"))
    as (w' & HO & Hr & H0 & H1 & _); [exact Hs | reflexivity | discriminate |].
  exists w'. split; [exact HO|]. split; [rewrite Hr; vm_compute; reflexivity|].
  split; [exact H0 | exact H1].
Defined.

Example context_menu_last_row :
  ShowContextMenu [mkItem "" None (Some (-1)%Z) None DefaultFlags]
  = [Separator; UpdateAction]
  ∧ ShowContextMenu [] = [Separator; UpdateAction].
Proof. done. Qed.
